(** * eqk: the earthquake feed reporter (main.go)

    A shallow embedding of the program's fetch / decode / filter / report
    pipeline, followed by the properties established for it.

    Conventions.
    - [float64] is an IEEE 754 binary64 value, taken from the
      standard library's [spec_float]; Go's [>] is [SFltb] with its
      arguments swapped, so a NaN on either side compares false.
    - [int] and [int64] are 64-bit two's-complement integers carried by [Z];
      the only arithmetic the program does on them, [totalEarthquakes++],
      has its wrap-around written out ([int_wrap]); [int] is taken at the 64
      bits it has on the platforms Go is commonly built for.
    - Standard output is the exact text written; the [log] package's output is
      kept as a list of records (the date and time prefix that [log] puts in
      front of each line is not modelled).
    - The outside world is an input: [os.Args] and the outcome of the one
      HTTP request. *)

From Stdlib Require Import ZArith List String Ascii Bool Lia.
From Stdlib Require Import Floats.SpecFloat.
Import ListNotations.

Local Open Scope list_scope.
Local Open Scope string_scope.
Local Open Scope Z_scope.

(* ================================================================== *)
(** * Machine integers and floats *)

Definition int_wrap (z : Z) : Z := (z + 2 ^ 63) mod 2 ^ 64 - 2 ^ 63.

Definition int_min : Z := - 2 ^ 63.
Definition int_max : Z := 2 ^ 63 - 1.

Definition float64 : Type := spec_float.

(** The float64 nearest to the integer [m * 2^e] (round to nearest even). *)
Definition float64_of_Z (m e : Z) : float64 := binary_normalize 53 1024 m e false.

Definition float64_zero : float64 := S754_zero false.

(** Go's [x > y] on float64. *)
Definition float64_gt (x y : float64) : bool := SFltb y x.

(** Go's [x <= y] and [x == y] on float64. *)
Definition float64_le (x y : float64) : bool := SFleb x y.
Definition float64_eq (x y : float64) : bool := SFeqb x y.

(* ================================================================== *)
(** * Text *)

Definition LF : string := String "010"%char EmptyString.

Definition digit (d : Z) : ascii := ascii_of_nat (48 + Z.to_nat d).

Fixpoint utoa_aux (fuel : nat) (n : Z) (acc : string) : string :=
  match fuel with
  | O => acc
  | S fuel' =>
      let acc' := String (digit (n mod 10)) acc in
      if n <? 10 then acc' else utoa_aux fuel' (n / 10) acc'
  end.

(** Decimal digits of a non-negative integer, no padding. *)
Definition utoa (n : Z) : string :=
  utoa_aux (S (Z.to_nat (Z.log2 n))) n EmptyString.

Fixpoint zeros (n : nat) : string :=
  match n with
  | O => EmptyString
  | S n' => String "0"%char (zeros n')
  end.

(** [fmt]'s [%d] on an int. *)
Definition fmt_d (n : Z) : string :=
  if n <? 0 then "-" ++ utoa (- n) else utoa n.

(** [appendInt] of package time: sign, then the digits padded with zeros on
    the left up to [width]. *)
Definition appendInt (x : Z) (width : nat) : string :=
  let u := Z.abs x in
  let ds := utoa u in
  (if x <? 0 then "-" else "") ++ zeros (width - String.length ds) ++ ds.

(* ------------------------------------------------------------------ *)
(** ** [%.Nf] on a float64

    [strconv] converts the exact binary value to decimal and rounds it to
    [prec] fractional digits, ties to even; [fmt] prints no sign for a
    positive number, ["+Inf"] and ["-Inf"] for the infinities and ["NaN"]. *)

Definition round_half_even (num den : Z) : Z :=
  let q := num / den in
  let r := num mod den in
  match 2 * r ?= den with
  | Lt => q
  | Gt => q + 1
  | Eq => if Z.even q then q else q + 1
  end.

(** The integer nearest to [m * 2^e * 10^prec]. *)
Definition scaled_decimal (prec : nat) (m : positive) (e : Z) : Z :=
  let p10 := 10 ^ Z.of_nat prec in
  if 0 <=? e then Zpos m * 2 ^ e * p10
  else round_half_even (Zpos m * p10) (2 ^ (- e)).

Definition fixed_digits (prec : nat) (n : Z) : string :=
  let p10 := 10 ^ Z.of_nat prec in
  let frac := utoa (n mod p10) in
  utoa (n / p10) ++
  match prec with
  | O => ""
  | _ => "." ++ zeros (prec - String.length frac) ++ frac
  end.

Definition sign_text (s : bool) : string := if s then "-" else "".

Definition fmt_f (prec : nat) (x : float64) : string :=
  match x with
  | S754_nan => "NaN"
  | S754_infinity s => if s then "-Inf" else "+Inf"
  | S754_zero s => sign_text s ++ fixed_digits prec 0
  | S754_finite s m e => sign_text s ++ fixed_digits prec (scaled_decimal prec m e)
  end.

(* ================================================================== *)
(** * Package time: [UnixMilli], [UTC] and [Format]

    A [Time] is an instant; [t.UTC()] presents the same instant in the UTC
    location, whose offset is 0 and whose abbreviation is ["UTC"].  Only
    [t.UTC().Format(layout)] is used by the program and only that is
    modelled ([FormatUTC]). *)

Module time.

Record Time : Type := mkTime { unixSec : Z; nsec : Z }.

(** [Unix(msec/1e3, (msec%1e3)*1e6)]: Go's [/] and [%] truncate, and [Unix]
    brings a negative nanosecond count back into range. *)
Definition UnixMilli (msec : Z) : Time :=
  let sec := Z.quot msec 1000 in
  let ns := Z.rem msec 1000 * 1000000 in
  if ns <? 0 then mkTime (sec - 1) (ns + 1000000000) else mkTime sec ns.

Definition secondsPerDay : Z := 86400.

(** Year, month and day of the proleptic Gregorian calendar for a number of
    days since 1970-01-01, through the 400-year era the day falls in. *)
Definition civil_from_days (days : Z) : Z * Z * Z :=
  let z := days + 719468 in
  let era := z / 146097 in
  let doe := z - era * 146097 in
  let yoe := (doe - doe / 1460 + doe / 36524 - doe / 146096) / 365 in
  let doy := doe - (365 * yoe + yoe / 4 - yoe / 100) in
  let mp := (5 * doy + 2) / 153 in
  let d := doy - (153 * mp + 2) / 5 + 1 in
  let m := if mp <? 10 then mp + 3 else mp - 9 in
  let y := yoe + era * 400 + (if m <=? 2 then 1 else 0) in
  (y, m, d).

(** The inverse direction, used to state what [civil_from_days] computes. *)
Definition days_from_civil (y m d : Z) : Z :=
  let y' := if m <=? 2 then y - 1 else y in
  let era := y' / 400 in
  let yoe := y' - era * 400 in
  let mp := if 2 <? m then m - 3 else m + 9 in
  let doy := (153 * mp + 2) / 5 + d - 1 in
  let doe := yoe * 365 + yoe / 4 - yoe / 100 + doy in
  era * 146097 + doe - 719468.

Definition is_leap (y : Z) : bool :=
  ((y mod 4 =? 0) && negb (y mod 100 =? 0)) || (y mod 400 =? 0).

Definition days_in_month (y m : Z) : Z :=
  if m =? 2 then (if is_leap y then 29 else 28)
  else if (m =? 4) || (m =? 6) || (m =? 9) || (m =? 11) then 30
  else 31.

Definition Year (t : Time) : Z := fst (fst (civil_from_days (unixSec t / secondsPerDay))).
Definition Month (t : Time) : Z := snd (fst (civil_from_days (unixSec t / secondsPerDay))).
Definition Day (t : Time) : Z := snd (civil_from_days (unixSec t / secondsPerDay)).
Definition Hour (t : Time) : Z := (unixSec t mod secondsPerDay) / 3600.
Definition Minute (t : Time) : Z := (unixSec t mod 3600) / 60.
Definition Second (t : Time) : Z := unixSec t mod 60.

(** The layout elements that occur in [dateFormat]. *)
Inductive chunk : Type :=
| stdLongYear      (* "2006" *)
| stdZeroMonth     (* "01" *)
| stdZeroDay       (* "02" *)
| stdHour          (* "15" *)
| stdZeroMinute    (* "04" *)
| stdZeroSecond    (* "05" *)
| stdTZ            (* "MST" *)
| literal (c : ascii).

Fixpoint strip_prefix (p s : string) : option string :=
  match p with
  | EmptyString => Some s
  | String a p' =>
      match s with
      | EmptyString => None
      | String b s' => if Ascii.eqb a b then strip_prefix p' s' else None
      end
  end.

Definition std_chunks : list (string * chunk) :=
  [ ("2006", stdLongYear); ("01", stdZeroMonth); ("02", stdZeroDay);
    ("15", stdHour); ("04", stdZeroMinute); ("05", stdZeroSecond);
    ("MST", stdTZ) ].

Fixpoint first_chunk (table : list (string * chunk)) (layout : string)
  : option (chunk * string) :=
  match table with
  | [] => None
  | (p, c) :: table' =>
      match strip_prefix p layout with
      | Some rest => Some (c, rest)
      | None => first_chunk table' layout
      end
  end.

(** [nextStdChunk], restricted to the elements above: anything else in the
    layout is copied as it is. *)
Fixpoint layout_chunks (fuel : nat) (layout : string) : list chunk :=
  match fuel with
  | O => []
  | S fuel' =>
      match layout with
      | EmptyString => []
      | String c rest =>
          match first_chunk std_chunks layout with
          | Some (k, rest') => k :: layout_chunks fuel' rest'
          | None => literal c :: layout_chunks fuel' rest
          end
      end
  end.

Definition format_chunk (t : Time) (k : chunk) : string :=
  match k with
  | stdLongYear => appendInt (Year t) 4
  | stdZeroMonth => appendInt (Month t) 2
  | stdZeroDay => appendInt (Day t) 2
  | stdHour => appendInt (Hour t) 2
  | stdZeroMinute => appendInt (Minute t) 2
  | stdZeroSecond => appendInt (Second t) 2
  | stdTZ => "UTC"
  | literal c => String c EmptyString
  end.

(** [t.UTC().Format(layout)]. *)
Definition FormatUTC (t : Time) (layout : string) : string :=
  String.concat "" (map (format_chunk t) (layout_chunks (String.length layout) layout)).

End time.

(* ================================================================== *)
(** * Package strconv *)

Module strconv.

Definition is_digit (c : ascii) : bool :=
  let n := nat_of_ascii c in (48 <=? n)%nat && (n <=? 57)%nat.

Definition digit_value (c : ascii) : Z := Z.of_nat (nat_of_ascii c) - 48.

(** Value of a run of decimal digits; [None] on any other character. *)
Fixpoint digits_value (s : string) (acc : Z) : option Z :=
  match s with
  | EmptyString => Some acc
  | String c rest =>
      if is_digit c then digits_value rest (10 * acc + digit_value c) else None
  end.

(** [ParseInt(s, 10, 64)]: an optional sign, at least one digit, nothing
    else, and a value that fits in 64 bits; [None] when [err != nil]. *)
Definition ParseInt (s : string) : option Z :=
  match s with
  | EmptyString => None
  | String c rest =>
      let '(neg, ds) :=
        if Ascii.eqb c "-" then (true, rest)
        else if Ascii.eqb c "+" then (false, rest)
        else (false, s) in
      match ds with
      | EmptyString => None
      | _ =>
          match digits_value ds 0 with
          | None => None
          | Some u =>
              let n := if neg then - u else u in
              if (int_min <=? n) && (n <=? int_max) then Some n else None
          end
      end
  end.

End strconv.

(* ================================================================== *)
(** * The process: standard output, the log, and the ways to stop *)

(** The Go types a JSON value is stored into by this program. *)
Inductive gotype : Type :=
| TString | TFloat64 | TInt64 | TInt | TStruct | TSlice.

Inductive error : Type :=
| TransportError (cause : string)
    (* [client.Do] failed: DNS, connection refused, ... *)
| SyntaxError (cause : string)
    (* the body is not one well-formed JSON value, e.g. it is truncated *)
| UnmarshalTypeError (value : string) (target : gotype).
    (* a well-formed JSON value of the wrong kind for its Go field *)

Inductive log_record : Type :=
| LogPrintf (msg : string)
| LogFatalf (msg : string) (err : error).   (* msg, then [%v] of err *)

Inductive runtime_error : Type :=
| IndexOutOfRange (index length : Z).

Inductive halt : Type :=
| OsExit (code : Z)
| Panic (e : runtime_error).

Record console : Type := mkConsole { stdout : string; logged : list log_record }.

Definition console0 : console := mkConsole "" [].

Definition IO (A : Type) : Type := console -> (A + halt) * console.

Definition ret {A} (a : A) : IO A := fun c => (inl a, c).

Definition bind {A B} (m : IO A) (k : A -> IO B) : IO B :=
  fun c =>
    match m c with
    | (inl a, c') => k a c'
    | (inr h, c') => (inr h, c')
    end.

Declare Scope io_scope.
Delimit Scope io_scope with io.
Notation "x <- m ;; k" := (bind m (fun x => k))
  (at level 61, m at next level, right associativity) : io_scope.
Notation "m ;; k" := (bind m (fun _ => k))
  (at level 61, right associativity) : io_scope.
Local Open Scope io_scope.

(** [fmt.Printf] with its verbs already expanded into [text]. *)
Definition Printf (text : string) : IO unit :=
  fun c => (inl tt, mkConsole (stdout c ++ text) (logged c)).

Definition Println (text : string) : IO unit := Printf (text ++ LF).

Definition log_Printf (msg : string) : IO unit :=
  fun c => (inl tt, mkConsole (stdout c) (logged c ++ [LogPrintf msg])).

(** [log.Fatalf] writes the record and calls [os.Exit(1)]. *)
Definition log_Fatalf {A} (msg : string) (err : error) : IO A :=
  fun c => (inr (OsExit 1), mkConsole (stdout c) (logged c ++ [LogFatalf msg err])).

(** [s[i]] on a slice: a run-time panic when [i] is not below [len(s)]. *)
Definition index {A} (s : list A) (i : nat) : IO A :=
  fun c =>
    match nth_error s i with
    | Some a => (inl a, c)
    | None => (inr (Panic (IndexOutOfRange (Z.of_nat i) (Z.of_nat (List.length s)))), c)
    end.

(** What the operating system sees when the process ends. *)
Definition exit_status (r : unit + halt) : Z :=
  match r with
  | inl _ => 0
  | inr (OsExit code) => code
  | inr (Panic _) => 2
  end.

(* ================================================================== *)
(** * The data model of main.go *)

Definition EarthquakeAPIURL : string :=
  "https://earthquake.usgs.gov/earthquakes/feed/v1.0/summary/significant_month.geojson".

Definition separator : string :=
  "-------------------------------------------------------------------".

Definition dateFormat : string := "2006-01-02 15:04:05 MST".

Record Metadata : Type := mkMetadata {
  Generated : Z;       (* int64  `json:"generated"` *)
  URL : string;        (* string `json:"url"` *)
  Title : string;      (* string `json:"title"` *)
  Status : Z;          (* int    `json:"status"` *)
  API : string;        (* string `json:"api"` *)
  Count : Z            (* int    `json:"count"` *)
}.

Record PropertiesT : Type := mkProperties {
  Mag : float64;       (* `json:"mag"` *)
  Place : string;      (* `json:"place"` *)
  Time : Z;            (* int64 `json:"time"` *)
  Updated : Z;         (* int64 `json:"updated"` *)
  Tz : Z;              (* int `json:"tz"` *)
  Longitude : float64; (* `json:"longitude"` *)
  Latitude : float64   (* `json:"latitude"` *)
}.

Record GeometryT : Type := mkGeometry {
  GeometryType : string;          (* Type `json:"type"` *)
  Coordinates : list float64      (* `json:"coordinates"` *)
}.

(** An element of [Earthquake.Features]. *)
Record Feature : Type := mkFeature {
  FeatureType : string;           (* Type `json:"type"` *)
  Properties : PropertiesT;       (* `json:"properties"` *)
  Geometry : GeometryT            (* `json:"geometry"` *)
}.

Record Earthquake : Type := mkEarthquake {
  EarthquakeType : string;        (* Type `json:"type"` *)
  Meta : Metadata;                (* no tag: the JSON name is the Go name, Meta *)
  Features : list Feature         (* `json:"features"` *)
}.

(** Go's zero values. *)
Definition Metadata0 : Metadata := mkMetadata 0 "" "" 0 "" 0.
Definition Properties0 : PropertiesT :=
  mkProperties float64_zero "" 0 0 0 float64_zero float64_zero.
Definition Geometry0 : GeometryT := mkGeometry "" [].
Definition Feature0 : Feature := mkFeature "" Properties0 Geometry0.
Definition Earthquake0 : Earthquake := mkEarthquake "" Metadata0 [].

(* ================================================================== *)
(** * Package encoding/json, as far as [Decode(&earthquakeData)] goes

    The decoder first checks that the body holds one well-formed JSON value
    and only then stores it into the Go value.  The first step is taken as
    given: a body either fails it with a cause or denotes a JSON value.  The
    second step, which depends on the struct declarations of main.go, is
    written out. *)

#[local] Set Warnings "-register-all".

Inductive json : Type :=
| JNull
| JBool (b : bool)
| JNumber (lit : string)                   (* the literal as it is written *)
| JString (s : string)
| JArray (elems : list json)
| JObject (members : list (string * json)). (* in document order *)

Inductive response_body : Type :=
| Malformed (cause : string)
| Document (v : json).

(** The outcome of [client.Do(req)]. *)
Inductive network : Type :=
| Unreachable (cause : string)
| Responds (body : response_body).

Definition result (A : Type) : Type := (A + error)%type.

Module json_decode.

Definition upper (c : ascii) : ascii :=
  let n := nat_of_ascii c in
  if (97 <=? n)%nat && (n <=? 122)%nat then ascii_of_nat (n - 32) else c.

(** [foldName]: ASCII letters go to upper case; the two runes outside ASCII
    whose case folding reaches an ASCII letter, U+017F (bytes C5 BF) and
    U+212A (bytes E2 84 AA), go to [S] and [K]. *)
Fixpoint foldName (s : string) : string :=
  match s with
  | EmptyString => EmptyString
  | String a r1 =>
      match r1 with
      | EmptyString => String (upper a) EmptyString
      | String b r2 =>
          if Ascii.eqb a "197" && Ascii.eqb b "191" then String "S" (foldName r2)
          else
            match r2 with
            | EmptyString => String (upper a) (foldName r1)
            | String c r3 =>
                if Ascii.eqb a "226" && Ascii.eqb b "132" && Ascii.eqb c "170"
                then String "K" (foldName r3)
                else String (upper a) (foldName r1)
            end
      end
  end.

(** A key of the document selects the field of that JSON name, compared
    exactly or else under case folding (no two fields of one struct of
    main.go have names that fold together, so the order of the two tests
    does not show). *)
Definition selects (key name : string) : bool :=
  String.eqb key name || String.eqb (foldName key) (foldName name).

(** The description of a JSON value in an [UnmarshalTypeError]. *)
Definition kind_of (v : json) : string :=
  match v with
  | JNull => "null"
  | JBool _ => "bool"
  | JNumber _ => "number"
  | JString _ => "string"
  | JArray _ => "array"
  | JObject _ => "object"
  end.

Definition mismatch {A} (v : json) (t : gotype) : result A :=
  inr (UnmarshalTypeError (kind_of v) t).

(** Storing into a field: [null] leaves a field that is not a pointer, map
    or slice as it was. *)
Definition store_string (v : json) (old : string) : result string :=
  match v with
  | JNull => inl old
  | JString s => inl s
  | _ => mismatch v TString
  end.

Definition store_int (t : gotype) (v : json) (old : Z) : result Z :=
  match v with
  | JNull => inl old
  | JNumber lit =>
      match strconv.ParseInt lit with
      | Some n => inl n
      | None => inr (UnmarshalTypeError ("number " ++ lit) t)
      end
  | _ => mismatch v t
  end.

Section WithParseFloat.

(** [strconv.ParseFloat(s, 64)], [None] when it returns an error. *)
Variable ParseFloat : string -> option float64.

Definition store_float64 (v : json) (old : float64) : result float64 :=
  match v with
  | JNull => inl old
  | JNumber lit =>
      match ParseFloat lit with
      | Some x => inl x
      | None => inr (UnmarshalTypeError ("number " ++ lit) TFloat64)
      end
  | _ => mismatch v TFloat64
  end.

(** The members of an object are stored one after the other into the same
    struct; a key that selects no field is skipped. *)
Fixpoint store_members {S : Type} (field : string -> json -> S -> result S)
  (members : list (string * json)) (s : S) : result S :=
  match members with
  | [] => inl s
  | (key, v) :: rest =>
      match field key v s with
      | inl s' => store_members field rest s'
      | inr e => inr e
      end
  end.

Definition store_struct {S : Type} (field : string -> json -> S -> result S)
  (v : json) (old : S) : result S :=
  match v with
  | JNull => inl old
  | JObject members => store_members field members old
  | _ => mismatch v TStruct
  end.

(** The elements of an array are stored into the elements the slice
    already has, then into fresh zero elements; the slice ends with the
    length of the array. *)
Fixpoint store_elems {T : Type} (elem : json -> T -> result T) (zero : T)
  (elems : list json) (old : list T) : result (list T) :=
  match elems with
  | [] => inl []
  | x :: elems' =>
      let '(o, old') := match old with [] => (zero, []) | o :: old' => (o, old') end in
      match elem x o with
      | inr e => inr e
      | inl t =>
          match store_elems elem zero elems' old' with
          | inr e => inr e
          | inl ts => inl (t :: ts)
          end
      end
  end.

Definition store_slice {T : Type} (elem : json -> T -> result T) (zero : T)
  (v : json) (old : list T) : result (list T) :=
  match v with
  | JNull => inl []
  | JArray elems => store_elems elem zero elems old
  | _ => mismatch v TSlice
  end.

Definition field_Metadata (key : string) (v : json) (m : Metadata) : result Metadata :=
  if selects key "generated" then
    match store_int TInt64 v (Generated m) with
    | inl x => inl (mkMetadata x (URL m) (Title m) (Status m) (API m) (Count m))
    | inr e => inr e
    end
  else if selects key "url" then
    match store_string v (URL m) with
    | inl x => inl (mkMetadata (Generated m) x (Title m) (Status m) (API m) (Count m))
    | inr e => inr e
    end
  else if selects key "title" then
    match store_string v (Title m) with
    | inl x => inl (mkMetadata (Generated m) (URL m) x (Status m) (API m) (Count m))
    | inr e => inr e
    end
  else if selects key "status" then
    match store_int TInt v (Status m) with
    | inl x => inl (mkMetadata (Generated m) (URL m) (Title m) x (API m) (Count m))
    | inr e => inr e
    end
  else if selects key "api" then
    match store_string v (API m) with
    | inl x => inl (mkMetadata (Generated m) (URL m) (Title m) (Status m) x (Count m))
    | inr e => inr e
    end
  else if selects key "count" then
    match store_int TInt v (Count m) with
    | inl x => inl (mkMetadata (Generated m) (URL m) (Title m) (Status m) (API m) x)
    | inr e => inr e
    end
  else inl m.

Definition field_Properties (key : string) (v : json) (p : PropertiesT)
  : result PropertiesT :=
  if selects key "mag" then
    match store_float64 v (Mag p) with
    | inl x => inl (mkProperties x (Place p) (Time p) (Updated p) (Tz p) (Longitude p) (Latitude p))
    | inr e => inr e
    end
  else if selects key "place" then
    match store_string v (Place p) with
    | inl x => inl (mkProperties (Mag p) x (Time p) (Updated p) (Tz p) (Longitude p) (Latitude p))
    | inr e => inr e
    end
  else if selects key "time" then
    match store_int TInt64 v (Time p) with
    | inl x => inl (mkProperties (Mag p) (Place p) x (Updated p) (Tz p) (Longitude p) (Latitude p))
    | inr e => inr e
    end
  else if selects key "updated" then
    match store_int TInt64 v (Updated p) with
    | inl x => inl (mkProperties (Mag p) (Place p) (Time p) x (Tz p) (Longitude p) (Latitude p))
    | inr e => inr e
    end
  else if selects key "tz" then
    match store_int TInt v (Tz p) with
    | inl x => inl (mkProperties (Mag p) (Place p) (Time p) (Updated p) x (Longitude p) (Latitude p))
    | inr e => inr e
    end
  else if selects key "longitude" then
    match store_float64 v (Longitude p) with
    | inl x => inl (mkProperties (Mag p) (Place p) (Time p) (Updated p) (Tz p) x (Latitude p))
    | inr e => inr e
    end
  else if selects key "latitude" then
    match store_float64 v (Latitude p) with
    | inl x => inl (mkProperties (Mag p) (Place p) (Time p) (Updated p) (Tz p) (Longitude p) x)
    | inr e => inr e
    end
  else inl p.

Definition field_Geometry (key : string) (v : json) (g : GeometryT) : result GeometryT :=
  if selects key "type" then
    match store_string v (GeometryType g) with
    | inl x => inl (mkGeometry x (Coordinates g))
    | inr e => inr e
    end
  else if selects key "coordinates" then
    match store_slice store_float64 float64_zero v (Coordinates g) with
    | inl x => inl (mkGeometry (GeometryType g) x)
    | inr e => inr e
    end
  else inl g.

Definition field_Feature (key : string) (v : json) (f : Feature) : result Feature :=
  if selects key "type" then
    match store_string v (FeatureType f) with
    | inl x => inl (mkFeature x (Properties f) (Geometry f))
    | inr e => inr e
    end
  else if selects key "properties" then
    match store_struct field_Properties v (Properties f) with
    | inl x => inl (mkFeature (FeatureType f) x (Geometry f))
    | inr e => inr e
    end
  else if selects key "geometry" then
    match store_struct field_Geometry v (Geometry f) with
    | inl x => inl (mkFeature (FeatureType f) (Properties f) x)
    | inr e => inr e
    end
  else inl f.

Definition field_Earthquake (key : string) (v : json) (q : Earthquake) : result Earthquake :=
  if selects key "type" then
    match store_string v (EarthquakeType q) with
    | inl x => inl (mkEarthquake x (Meta q) (Features q))
    | inr e => inr e
    end
  else if selects key "Meta" then
    match store_struct field_Metadata v (Meta q) with
    | inl x => inl (mkEarthquake (EarthquakeType q) x (Features q))
    | inr e => inr e
    end
  else if selects key "features" then
    match store_slice (store_struct field_Feature) Feature0 v (Features q) with
    | inl x => inl (mkEarthquake (EarthquakeType q) (Meta q) x)
    | inr e => inr e
    end
  else inl q.

(** [json.NewDecoder(resp.Body).Decode(&earthquakeData)]. *)
Definition Decode (body : response_body) (q : Earthquake) : result Earthquake :=
  match body with
  | Malformed cause => inr (SyntaxError cause)
  | Document v => store_struct field_Earthquake v q
  end.

End WithParseFloat.

End json_decode.

(* ================================================================== *)
(** * main.go *)

Section Program.

(** [strconv.ParseFloat(s, 64)], [None] when it returns an error.  It is
    the one function both the argument parser and the JSON decoder call to
    read a float64. *)
Variable ParseFloat : string -> option float64.

(** [fetchEarthquakeData].  [http.NewRequest] cannot fail on the constant
    method and URL it is given, so the first failure point is [client.Do]. *)
Definition fetchEarthquakeData (net : network) : result Earthquake :=
  match net with
  | Unreachable cause => inr (TransportError cause)
  | Responds body =>
      match json_decode.Decode ParseFloat body Earthquake0 with
      | inr err => inr err
      | inl earthquakeData => inl earthquakeData
      end
  end.

(** [parseMinimumMagnitude], on [os.Args]. *)
Definition parseMinimumMagnitude (args : list string) : IO float64 :=
  match args with
  | _ :: arg1 :: _ =>
      match ParseFloat arg1 with
      | Some n => ret n
      | None =>
          log_Printf "Invalid magnitude provided, using default of 0" ;;
          ret float64_zero
      end
  | _ => ret float64_zero
  end.

Definition printEarthquakeInfo (feature : Feature) : IO unit :=
  Printf ("Epicenter: " ++ Place (Properties feature) ++ LF) ;;
  Printf ("Magnitude: " ++ fmt_f 1 (Mag (Properties feature)) ++ LF) ;;
  let t := time.UnixMilli (Time (Properties feature)) in
  Printf ("Time: " ++ time.FormatUTC t dateFormat ++ LF) ;;
  lon <- index (Coordinates (Geometry feature)) 0 ;;
  Printf ("Longitude: " ++ fmt_f 4 lon ++ LF) ;;
  lat <- index (Coordinates (Geometry feature)) 1 ;;
  Printf ("Latitude: " ++ fmt_f 4 lat ++ LF) ;;
  Println separator.

(** The [for ... range earthquakeData.Features] loop of [listQuakes], with
    [totalEarthquakes] as the loop state. *)
Fixpoint rangeFeatures (minimumMagnitude : float64) (features : list Feature)
  (totalEarthquakes : Z) : IO Z :=
  match features with
  | [] => ret totalEarthquakes
  | feature :: rest =>
      if float64_gt (Mag (Properties feature)) minimumMagnitude then
        printEarthquakeInfo feature ;;
        rangeFeatures minimumMagnitude rest (int_wrap (totalEarthquakes + 1))
      else rangeFeatures minimumMagnitude rest totalEarthquakes
  end.

Definition listQuakes (net : network) (minimumMagnitude : float64) : IO Z :=
  match fetchEarthquakeData net with
  | inr err => log_Fatalf "Failed to fetch earthquake data: " err
  | inl earthquakeData =>
      Println separator ;;
      Printf ("Earthquake(s) with magnitude " ++ fmt_f 1 minimumMagnitude ++
              " or higher in the last 30 days:" ++ LF) ;;
      Println separator ;;
      rangeFeatures minimumMagnitude (Features earthquakeData) 0
  end.

Definition main (args : list string) (net : network) : IO unit :=
  minimumMagnitude <- parseMinimumMagnitude args ;;
  totalEarthquakes <- listQuakes net minimumMagnitude ;;
  Printf ("Total number of Earthquakes: " ++ fmt_d totalEarthquakes ++ LF).

(** One run of the program from an empty console. *)
Definition run (args : list string) (net : network) : (unit + halt) * console :=
  main args net console0.

End Program.

(* ================================================================== *)
(** * A reading of [strconv.ParseFloat] for the examples

    The decimal literals of [strconv.ParseFloat(s, 64)]: an optional sign,
    digits with an optional point, an optional exponent, rounded to the
    nearest float64, an error when the result is out of range.  The real
    function also reads hexadecimal literals, infinities and NaN; nothing
    below the examples depends on which strings this one accepts. *)

Module decimal.

Fixpoint take_digits (s : string) (acc count : Z) : Z * Z * string :=
  match s with
  | EmptyString => (acc, count, s)
  | String c rest =>
      if strconv.is_digit c
      then take_digits rest (10 * acc + strconv.digit_value c) (count + 1)
      else (acc, count, s)
  end.

Definition take_sign (s : string) : bool * string :=
  match s with
  | String c rest =>
      if Ascii.eqb c "-" then (true, rest)
      else if Ascii.eqb c "+" then (false, rest)
      else (false, s)
  | EmptyString => (false, s)
  end.

(** The float64 nearest to [mant * 10^e10], [mant >= 0]. *)
Definition to_float64 (neg : bool) (mant e10 : Z) : float64 :=
  if mant =? 0 then S754_zero neg
  else if 0 <=? e10 then
    float64_of_Z ((if neg then - mant else mant) * 10 ^ e10) 0
  else
    let den := 10 ^ (- e10) in
    let s := Z.max 0 (64 + Z.log2 den - Z.log2 mant) in
    let num := mant * 2 ^ s in
    let sticky := if num mod den =? 0 then 0 else 1 in
    let m := 2 * (num / den) + sticky in
    float64_of_Z (if neg then - m else m) (- s - 1).

Definition in_range (x : float64) : option float64 :=
  match x with
  | S754_infinity _ => None
  | S754_nan => None
  | _ => Some x
  end.

Definition ParseFloat (s : string) : option float64 :=
  let '(neg, s1) := take_sign s in
  let '(ip, nip, s2) := take_digits s1 0 0 in
  let '(mant, nfp, s3) :=
    match s2 with
    | String c rest =>
        if Ascii.eqb c "." then take_digits rest ip 0 else (ip, 0, s2)
    | EmptyString => (ip, 0, s2)
    end in
  if nip + nfp =? 0 then None
  else
    match s3 with
    | EmptyString => in_range (to_float64 neg mant (- nfp))
    | String c rest =>
        if Ascii.eqb c "e" || Ascii.eqb c "E" then
          let '(eneg, s4) := take_sign rest in
          match take_digits s4 0 0 with
          | (ex, nex, EmptyString) =>
              if nex =? 0 then None
              else in_range (to_float64 neg mant ((if eneg then - ex else ex) - nfp))
          | _ => None
          end
        else None
    end.

End decimal.

(* ================================================================== *)
(** * Vocabulary of the specification

    The words the specification uses for what the reporter does, as plain
    functions of the decoded feed; the theorems below relate the program
    to them. *)

(** A record is selected when its magnitude is strictly above the threshold. *)
Definition selected (minimumMagnitude : float64) (f : Feature) : bool :=
  float64_gt (Mag (Properties f)) minimumMagnitude.

(** The number of records with [magnitude > m]. *)
Definition count_above (m : float64) (records : list Feature) : Z :=
  Z.of_nat (List.length (filter (selected m) records)).

(** A record from which longitude and latitude can be taken. *)
Definition has_lon_lat (f : Feature) : Prop :=
  (2 <= List.length (Coordinates (Geometry f)))%nat.

(** The printed event time of a record: its [time] in milliseconds since the
    epoch, in UTC, under [dateFormat]. *)
Definition timestamp (msec : Z) : string :=
  time.FormatUTC (time.UnixMilli msec) dateFormat.

(** The first three lines of a record's block. *)
Definition block_head (f : Feature) : string :=
  "Epicenter: " ++ Place (Properties f) ++ LF ++
  "Magnitude: " ++ fmt_f 1 (Mag (Properties f)) ++ LF ++
  "Time: " ++ timestamp (Time (Properties f)) ++ LF.

(** The block of a record, given its longitude and latitude. *)
Definition block_of (f : Feature) (lon lat : float64) : string :=
  block_head f ++
  "Longitude: " ++ fmt_f 4 lon ++ LF ++
  "Latitude: " ++ fmt_f 4 lat ++ LF ++
  separator ++ LF.

Definition block (f : Feature) : string :=
  block_of f (nth 0 (Coordinates (Geometry f)) float64_zero)
             (nth 1 (Coordinates (Geometry f)) float64_zero).

(** The blocks of the selected records, in the order of the feed. *)
Definition blocks (m : float64) (records : list Feature) : string :=
  String.concat "" (map block (filter (selected m) records)).

(** The header: the threshold between two separator lines. *)
Definition header (minimumMagnitude : float64) : string :=
  separator ++ LF ++
  "Earthquake(s) with magnitude " ++ fmt_f 1 minimumMagnitude ++
  " or higher in the last 30 days:" ++ LF ++
  separator ++ LF.

(** The one warning of the argument parser. *)
Definition warning : log_record :=
  LogPrintf "Invalid magnitude provided, using default of 0".

Definition summary (count : Z) : string :=
  "Total number of Earthquakes: " ++ fmt_d count ++ LF.

(** Two records that agree on what a block shows: place, magnitude, event
    time and the first two coordinates. *)
Definition same_printed (f1 f2 : Feature) : Prop :=
  Place (Properties f1) = Place (Properties f2) /\
  Mag (Properties f1) = Mag (Properties f2) /\
  Time (Properties f1) = Time (Properties f2) /\
  firstn 2 (Coordinates (Geometry f1)) = firstn 2 (Coordinates (Geometry f2)).

(** What is printed of a record that has fewer than two coordinates, up to
    the index that is out of range. *)
Definition cut_block (f : Feature) : string :=
  block_head f ++
  match Coordinates (Geometry f) with
  | lon :: _ => "Longitude: " ++ fmt_f 4 lon ++ LF
  | [] => ""
  end.




(* ================================================================== *)
(** * Sample inputs

    Documents in the shape of the USGS feed, used where a property is shown
    on a concrete run. *)

Definition sample_record (mag place msec : string) (coords : list string) : json :=
  JObject
    [ ("type", JString "Feature");
      ("properties",
        JObject [ ("mag", JNumber mag); ("place", JString place);
                  ("time", JNumber msec); ("status", JString "reviewed") ]);
      ("geometry",
        JObject [ ("type", JString "Point");
                  ("coordinates", JArray (map JNumber coords)) ]) ].

Definition sample_metadata : json :=
  JObject
    [ ("generated", JNumber "1700000100000");
      ("url", JString EarthquakeAPIURL);
      ("title", JString "USGS Significant Earthquakes, Past Month");
      ("status", JNumber "200");
      ("api", JString "1.10.3");
      ("count", JNumber "3") ].

(** The feed as the USGS serves it: the metadata under the key [metadata]. *)
Definition sample_document (records : list json) : json :=
  JObject
    [ ("type", JString "FeatureCollection");
      ("metadata", sample_metadata);
      ("features", JArray records) ].

Definition record_san_francisco : json :=
  sample_record "5.5" "San Francisco, CA" "1700000000000"
    ["-122.4194"; "37.7749"; "10.0"].

Definition record_at_five : json :=
  sample_record "5.0" "Exactly five" "1700000001000" ["10.5"; "-20.25"].

Definition record_small : json :=
  sample_record "2.1" "A small one" "1700000002000" ["0"; "0"; "1"].

Definition record_no_coordinates : json :=
  sample_record "6.1" "No coordinates" "1700000003000" [].

Definition sample_net : network :=
  Responds (Document (sample_document
    [record_san_francisco; record_at_five; record_small])).

Definition empty_net : network := Responds (Document (sample_document [])).

Definition short_net : network :=
  Responds (Document (sample_document [record_san_francisco; record_no_coordinates])).

Definition truncated_net : network := Responds (Malformed "unexpected EOF").

(** A magnitude written as a string: a value of the wrong kind. *)
Definition mistyped_net : network :=
  Responds (Document (JObject
    [ ("features",
        JArray [ JObject [ ("properties", JObject [ ("mag", JString "5.5") ]) ] ]) ])).

(** The same feed with the metadata under the key [Meta]. *)
Definition meta_net : network :=
  Responds (Document (JObject
    [ ("type", JString "FeatureCollection");
      ("Meta", sample_metadata);
      ("features", JArray []) ])).

Definition decoded (net : network) : Earthquake :=
  match fetchEarthquakeData decimal.ParseFloat net with
  | inl q => q
  | inr _ => Earthquake0
  end.

Definition sample_feed : Earthquake := Eval vm_compute in decoded sample_net.
Definition short_feed : Earthquake := Eval vm_compute in decoded short_net.

Definition five : float64 := Eval vm_compute in float64_of_Z 5 0.
Definition six : float64 := Eval vm_compute in float64_of_Z 6 0.

(** The float64 values nearest to -122.4194, 37.7749 and 10. *)
Definition lon_sf : float64 := S754_finite true 8614499440983120 (-46).
Definition lat_sf : float64 := S754_finite false 5316344548873680 (-47).
Definition depth_sf : float64 := S754_finite false 5629499534213120 (-49).

Definition feature_sf : Feature :=
  mkFeature "Feature"
    (mkProperties (S754_finite false 6192449487634432 (-50)) "San Francisco, CA"
       1700000000000 0 0 float64_zero float64_zero)
    (mkGeometry "Point" [lon_sf; lat_sf; depth_sf]).

Definition record_one_coordinate : json :=
  sample_record "6.1" "One coordinate" "1700000003000" ["12.5"].

(** A feed whose second record has a single coordinate. *)
Definition cut_net : network :=
  Responds (Document (sample_document
    [record_san_francisco; record_one_coordinate; record_small])).

Definition cut_feed : Earthquake := Eval vm_compute in decoded cut_net.

(** The sample feed again, with other metadata, type tags, update times,
    depths and extra members: everything a block does not show. *)
Definition sample_net_variant : network :=
  Responds (Document (JObject
    [ ("features",
        JArray
          [ JObject
              [ ("properties",
                  JObject [ ("place", JString "San Francisco, CA");
                            ("updated", JNumber "1700000009999");
                            ("mag", JNumber "5.5"); ("tz", JNull);
                            ("time", JNumber "1700000000000");
                            ("longitude", JNumber "1"); ("latitude", JNumber "2") ]);
                ("geometry",
                  JObject [ ("coordinates",
                              JArray [JNumber "-122.4194"; JNumber "37.7749";
                                      JNumber "99.5"; JNumber "7"]) ]) ];
            JObject
              [ ("type", JString "Other");
                ("geometry",
                  JObject [ ("type", JString "Polygon");
                            ("coordinates", JArray [JNumber "10.5"; JNumber "-20.25"]) ]);
                ("properties",
                  JObject [ ("mag", JNumber "5.0"); ("place", JString "Exactly five");
                            ("time", JNumber "1700000001000") ]) ];
            record_small ]);
      ("type", JString "Something else") ])).

Definition sample_feed_variant : Earthquake :=
  Eval vm_compute in decoded sample_net_variant.

Definition minus_zero : float64 := S754_zero true.

(* ================================================================== *)
(** * Basic facts *)

Lemma append_assoc (a b c : string) : (a ++ b) ++ c = a ++ (b ++ c).
Proof.
  induction a as [|ch a IH]; simpl; [reflexivity | now rewrite IH].
Qed.

Lemma append_nil_r (a : string) : a ++ "" = a.
Proof.
  induction a as [|ch a IH]; simpl; [reflexivity | now rewrite IH].
Qed.

Lemma length_append (a b : string) :
  String.length (a ++ b) = (String.length a + String.length b)%nat.
Proof.
  induction a as [|ch a IH]; simpl; [reflexivity | now rewrite IH].
Qed.

Lemma length_zeros (n : nat) : String.length (zeros n) = n.
Proof.
  induction n as [|n IH]; simpl; [reflexivity | now rewrite IH].
Qed.

(** ** The order on float64 *)

Lemma SFcompare_swap (x y : float64) :
  SFcompare y x = option_map CompOpp (SFcompare x y).
Proof.
  destruct x as [sx|sx| |sx mx ex], y as [sy|sy| |sy my ey]; simpl;
    try destruct sx; try destruct sy; try reflexivity;
    rewrite (Z.compare_antisym ex ey); destruct (ex ?= ey); simpl;
    try reflexivity;
    change (Pos.compare_cont Eq my mx) with (Pos.compare my mx);
    change (Pos.compare_cont Eq mx my) with (Pos.compare mx my);
    rewrite (Pos.compare_antisym mx my);
    destruct (Pos.compare mx my); reflexivity.
Qed.

(** [x == m] rules out [x > m]. *)
Lemma float64_eq_not_gt (x m : float64) :
  float64_eq x m = true -> float64_gt x m = false.
Proof.
  unfold float64_eq, float64_gt, SFeqb, SFltb.
  rewrite (SFcompare_swap x m).
  destruct (SFcompare x m) as [[| |]|]; simpl; congruence.
Qed.

Lemma float64_gt_irrefl (x : float64) : float64_gt x x = false.
Proof.
  unfold float64_gt, SFltb.
  pose proof (SFcompare_swap x x) as H.
  destruct (SFcompare x x) as [[| |]|]; simpl in *; congruence.
Qed.

Ltac compare_cases :=
  repeat match goal with
  | |- context [Z.compare ?a ?b] =>
      destruct (Z.compare_spec a b)
  | H : context [Z.compare ?a ?b] |- _ =>
      destruct (Z.compare_spec a b)
  | |- context [Pos.compare_cont Eq ?a ?b] =>
      change (Pos.compare_cont Eq a b) with (Pos.compare a b);
      destruct (Pos.compare_spec a b)
  | H : context [Pos.compare_cont Eq ?a ?b] |- _ =>
      change (Pos.compare_cont Eq a b) with (Pos.compare a b) in H;
      destruct (Pos.compare_spec a b)
  end.

(** [m1 <= m2] and [x > m2] give [x > m1]. *)
Lemma float64_le_gt_trans (m1 m2 x : float64) :
  float64_le m1 m2 = true -> float64_gt x m2 = true -> float64_gt x m1 = true.
Proof.
  unfold float64_le, float64_gt, SFleb, SFltb.
  destruct m1 as [s1|s1| |s1 p1 e1], m2 as [s2|s2| |s2 p2 e2],
           x as [s3|s3| |s3 p3 e3]; simpl;
    try destruct s1; try destruct s2; try destruct s3; simpl;
    try congruence;
    intros H12 H23; compare_cases; simpl in *; subst;
    try congruence; try lia.
Qed.

(** ** Machine integers *)

Lemma int_wrap_small (z : Z) : int_min <= z <= int_max -> int_wrap z = z.
Proof.
  unfold int_wrap, int_min, int_max. intros H.
  rewrite Z.mod_small; lia.
Qed.

(** ** Printing one record *)

Lemma concat_blocks_cons (f : Feature) (fs : list Feature) :
  String.concat "" (map block (f :: fs)) = block f ++ String.concat "" (map block fs).
Proof.
  cbn [map String.concat]. destruct (map block fs) as [|b bs] eqn:E.
  - cbn [String.concat]. now rewrite append_nil_r.
  - reflexivity.
Qed.

Lemma printEarthquakeInfo_ok (f : Feature) (lon lat : float64) (rest : list float64)
  (c : console) :
  Coordinates (Geometry f) = lon :: lat :: rest ->
  printEarthquakeInfo f c =
    (inl tt, mkConsole (stdout c ++ block_of f lon lat) (logged c)).
Proof.
  intros H.
  unfold printEarthquakeInfo, bind, Println, Printf, index.
  rewrite H. cbn [nth_error stdout logged].
  unfold block_of, block_head, timestamp.
  repeat rewrite append_assoc. reflexivity.
Qed.

Lemma printEarthquakeInfo_block (f : Feature) (c : console) :
  has_lon_lat f ->
  printEarthquakeInfo f c = (inl tt, mkConsole (stdout c ++ block f) (logged c)).
Proof.
  unfold has_lon_lat, block. intros H.
  destruct (Coordinates (Geometry f)) as [|lon [|lat rest]] eqn:E;
    simpl in H; try lia.
  now apply (printEarthquakeInfo_ok f lon lat rest).
Qed.

(** With fewer than two coordinates the record's block is cut short by an
    index out of range, after the lines that do not need the coordinates. *)
Lemma printEarthquakeInfo_short (f : Feature) (c : console) :
  ~ has_lon_lat f ->
  let n := Z.of_nat (List.length (Coordinates (Geometry f))) in
  printEarthquakeInfo f c =
    (inr (Panic (IndexOutOfRange n n)),
     mkConsole
       (stdout c ++ block_head f ++
        match Coordinates (Geometry f) with
        | lon :: _ => "Longitude: " ++ fmt_f 4 lon ++ LF
        | [] => ""
        end)
       (logged c)).
Proof.
  unfold has_lon_lat. intros H.
  unfold printEarthquakeInfo, bind, Println, Printf, index.
  destruct (Coordinates (Geometry f)) as [|lon [|lat rest]] eqn:E;
    simpl in H; try lia;
    cbn [nth_error stdout logged List.length];
    unfold block_head, timestamp;
    repeat rewrite append_assoc; rewrite ?append_nil_r; reflexivity.
Qed.

(** ** The loop *)

Lemma rangeFeatures_ok (m : float64) (fs : list Feature) :
  forall (t : Z) (c : console),
    Forall has_lon_lat (filter (selected m) fs) ->
    0 <= t -> t + Z.of_nat (List.length fs) <= int_max ->
    rangeFeatures m fs t c =
      (inl (t + count_above m fs), mkConsole (stdout c ++ blocks m fs) (logged c)).
Proof.
  unfold count_above, blocks.
  induction fs as [|f fs IH]; intros t c Hok Ht Hlen.
  - simpl. rewrite append_nil_r, Z.add_0_r. destruct c; reflexivity.
  - cbn [rangeFeatures filter] in *. fold (selected m f) in *.
    cbn [List.length] in Hlen.
    destruct (selected m f) eqn:Hsel.
    + inversion Hok as [|? ? Hf Hrest]; subst.
      unfold bind. rewrite (printEarthquakeInfo_block f c Hf).
      rewrite int_wrap_small by (unfold int_min, int_max in *; lia).
      rewrite IH by (auto; lia).
      cbn [stdout logged List.length].
      rewrite concat_blocks_cons, append_assoc.
      f_equal. f_equal. lia.
    + apply IH; auto; lia.
Qed.

Lemma rangeFeatures_returns (m : float64) (fs : list Feature) :
  forall (t n : Z) (c c' : console),
    rangeFeatures m fs t c = (inl n, c') ->
    Forall has_lon_lat (filter (selected m) fs).
Proof.
  induction fs as [|f fs IH]; intros t n c c' H.
  - constructor.
  - cbn [rangeFeatures filter] in *. fold (selected m f) in *.
    destruct (selected m f) eqn:Hsel.
    + unfold bind in H.
      destruct (printEarthquakeInfo f c) as [[[]|h] c1] eqn:Hp; [|discriminate].
      constructor; [|eapply IH; eassumption].
      destruct (Nat.le_gt_cases 2 (List.length (Coordinates (Geometry f)))) as [Hl|Hl];
        [exact Hl|].
      rewrite printEarthquakeInfo_short in Hp by (unfold has_lon_lat; lia).
      discriminate.
    + eapply IH; eassumption.
Qed.

Lemma count_above_bounds (m : float64) (fs : list Feature) :
  0 <= count_above m fs <= Z.of_nat (List.length fs).
Proof.
  unfold count_above. pose proof (filter_length_le (selected m) fs). lia.
Qed.

(** ** Decimal digits *)

Lemma utoa_aux_length (fuel : nat) :
  forall (k : nat) (n : Z) (acc : string),
    (1 <= k)%nat -> 0 <= n < 10 ^ Z.of_nat k ->
    (String.length (utoa_aux fuel n acc) <= String.length acc + k)%nat.
Proof.
  induction fuel as [|fuel IH]; intros k n acc Hk Hn; simpl.
  - lia.
  - destruct (n <? 10) eqn:E; [simpl; lia|].
    apply Z.ltb_ge in E.
    destruct k as [|[|k]]; [lia | simpl in Hn; lia |].
    assert (Hn' : 0 <= n / 10 < 10 ^ Z.of_nat (S k)).
    { replace (Z.of_nat (S (S k))) with (Z.succ (Z.of_nat (S k))) in Hn by lia.
      rewrite Z.pow_succ_r in Hn by lia.
      split; [apply Z.div_pos; lia | apply Z.div_lt_upper_bound; lia]. }
    specialize (IH (S k) (n / 10) (String (digit (n mod 10)) acc)
                   ltac:(lia) Hn').
    simpl in IH. lia.
Qed.

Lemma utoa_length (k : nat) (n : Z) :
  (1 <= k)%nat -> 0 <= n < 10 ^ Z.of_nat k -> (String.length (utoa n) <= k)%nat.
Proof.
  intros Hk Hn. unfold utoa.
  pose proof (utoa_aux_length (S (Z.to_nat (Z.log2 n))) k n "" Hk Hn) as H.
  simpl in H. exact H.
Qed.

(** A field that fits its width is printed with exactly that many digits. *)
Lemma appendInt_length (w : nat) (x : Z) :
  (1 <= w)%nat -> 0 <= x < 10 ^ Z.of_nat w -> String.length (appendInt x w) = w.
Proof.
  intros Hw Hx. unfold appendInt.
  assert (E : (x <? 0) = false) by (apply Z.ltb_ge; lia). rewrite E.
  rewrite Z.abs_eq by lia. simpl.
  rewrite length_append, length_zeros.
  pose proof (utoa_length w x Hw Hx). lia.
Qed.

(** ** The calendar *)

Lemma UnixMilli_sec (msec : Z) :
  0 <= msec - 1000 * time.unixSec (time.UnixMilli msec) < 1000.
Proof.
  unfold time.UnixMilli.
  pose proof (Z.quot_rem' msec 1000) as Hqr.
  assert (Hr : - 1000 < Z.rem msec 1000 < 1000).
  { pose proof (Z.rem_bound_abs msec 1000 ltac:(lia)). lia. }
  assert (Hsgn : 0 <= msec -> 0 <= Z.rem msec 1000)
    by (intros; apply Z.rem_nonneg; lia).
  assert (Hsgn' : msec <= 0 -> Z.rem msec 1000 <= 0)
    by (intros; apply Z.rem_nonpos; lia).
  destruct (Z.rem msec 1000 * 1000000 <? 0) eqn:E;
    [apply Z.ltb_lt in E | apply Z.ltb_ge in E]; cbn [time.unixSec]; lia.
Qed.

Lemma yoe_bounds (doe : Z) :
  0 <= doe < 146097 ->
  let yoe := (doe - doe / 1460 + doe / 36524 - doe / 146096) / 365 in
  let doy := doe - (365 * yoe + yoe / 4 - yoe / 100) in
  0 <= yoe <= 399 /\ 0 <= doy <= 365 /\
  (doy = 365 ->
   (yoe + 1) mod 4 = 0 /\ ((yoe + 1) mod 100 <> 0 \/ (yoe + 1) mod 400 = 0)).
Proof.
  intros H yoe doy. subst yoe doy.
  Z.div_mod_to_equations; lia.
Qed.

Lemma month_day_bounds (doy : Z) :
  0 <= doy <= 365 ->
  let mp := (5 * doy + 2) / 153 in
  let d := doy - (153 * mp + 2) / 5 + 1 in
  0 <= mp <= 11 /\ 1 <= d /\
  (mp = 11 -> d <= 28 \/ (d = 29 /\ doy = 365)) /\
  (mp = 1 \/ mp = 3 \/ mp = 6 \/ mp = 8 -> d <= 30) /\
  d <= 31.
Proof.
  intros H mp d. subst mp d.
  Z.div_mod_to_equations; lia.
Qed.

Lemma is_leap_true (y : Z) :
  y mod 4 = 0 -> (y mod 100 <> 0 \/ y mod 400 = 0) -> time.is_leap y = true.
Proof.
  unfold time.is_leap. intros H4 [H|H].
  - rewrite H4, Z.eqb_refl. apply Z.eqb_neq in H. now rewrite H.
  - rewrite H, Z.eqb_refl. apply orb_true_r.
Qed.

(** [civil_from_days] yields a date of the calendar, and the date of the
    given day. *)
Lemma civil_from_days_spec (days : Z) :
  let '(y, m, d) := time.civil_from_days days in
  1 <= m <= 12 /\ 1 <= d <= time.days_in_month y m /\
  time.days_from_civil y m d = days.
Proof.
  unfold time.civil_from_days.
  set (z := days + 719468).
  set (era := z / 146097).
  set (doe := z - era * 146097).
  assert (Hdoe : 0 <= doe < 146097)
    by (subst doe era; Z.div_mod_to_equations; lia).
  destruct (yoe_bounds doe Hdoe) as (Hyoe & Hdoy & Hleap).
  set (yoe := (doe - doe / 1460 + doe / 36524 - doe / 146096) / 365) in *.
  set (doy := doe - (365 * yoe + yoe / 4 - yoe / 100)) in *.
  destruct (month_day_bounds doy Hdoy) as (Hmp & Hd1 & Hfeb & H30 & H31).
  set (mp := (5 * doy + 2) / 153) in *.
  set (d := doy - (153 * mp + 2) / 5 + 1) in *.
  assert (Hback : (153 * mp + 2) / 5 + d - 1 = doy) by (subst d; lia).
  destruct (mp <? 10) eqn:Hlt; [apply Z.ltb_lt in Hlt | apply Z.ltb_ge in Hlt].
  - (* March to December *)
    assert (Hm : (mp + 3 <=? 2) = false) by (apply Z.leb_gt; lia).
    rewrite Hm. split; [lia|]. split.
    + split; [lia|]. unfold time.days_in_month.
      assert (E2 : (mp + 3 =? 2) = false) by (apply Z.eqb_neq; lia).
      rewrite E2.
      destruct ((mp + 3 =? 4) || (mp + 3 =? 6) || (mp + 3 =? 9) || (mp + 3 =? 11))
        eqn:E; [|lia].
      apply H30.
      repeat (apply orb_prop in E; destruct E as [E|E]); apply Z.eqb_eq in E; lia.
    + unfold time.days_from_civil. rewrite Hm.
      assert (E2 : (2 <? mp + 3) = true) by (apply Z.ltb_lt; lia). rewrite E2.
      replace (mp + 3 - 3) with mp by lia.
      replace ((yoe + era * 400 + 0) / 400) with era
        by (Z.div_mod_to_equations; lia).
      replace (yoe + era * 400 + 0 - era * 400) with yoe by lia.
      rewrite Hback. subst doy doe z. lia.
  - (* January and February, counted with the year before *)
    assert (Hm : (mp - 9 <=? 2) = true) by (apply Z.leb_le; lia).
    rewrite Hm. split; [lia|]. split.
    + split; [lia|]. unfold time.days_in_month.
      destruct (mp - 9 =? 2) eqn:E2;
        [apply Z.eqb_eq in E2 | apply Z.eqb_neq in E2].
      * assert (Hmp11 : mp = 11) by lia.
        destruct (Hfeb Hmp11) as [Hle|[Hd29 Hdoy365]].
        -- destruct (time.is_leap _); lia.
        -- destruct (Hleap Hdoy365) as [L4 L100].
           rewrite is_leap_true; [lia| |]; Z.div_mod_to_equations; lia.
      * assert (E : ((mp - 9 =? 4) || (mp - 9 =? 6) || (mp - 9 =? 9) ||
                     (mp - 9 =? 11)) = false).
        { repeat (apply orb_false_intro); apply Z.eqb_neq; lia. }
        rewrite E. lia.
    + unfold time.days_from_civil. rewrite Hm.
      assert (E2 : (2 <? mp - 9) = false) by (apply Z.ltb_ge; lia). rewrite E2.
      replace (mp - 9 + 9) with mp by lia.
      replace (yoe + era * 400 + 1 - 1) with (yoe + era * 400) by lia.
      replace ((yoe + era * 400) / 400) with era
        by (Z.div_mod_to_equations; lia).
      replace (yoe + era * 400 - era * 400) with yoe by lia.
      rewrite Hback. subst doy doe z. lia.
Qed.

(** The fields of a UTC time: a date of the calendar, a time of day, and
    together the second the time falls in. *)
Lemma time_fields (t : time.Time) :
  1 <= time.Month t <= 12 /\
  1 <= time.Day t <= time.days_in_month (time.Year t) (time.Month t) /\
  0 <= time.Hour t < 24 /\ 0 <= time.Minute t < 60 /\ 0 <= time.Second t < 60 /\
  86400 * time.days_from_civil (time.Year t) (time.Month t) (time.Day t)
    + 3600 * time.Hour t + 60 * time.Minute t + time.Second t = time.unixSec t.
Proof.
  unfold time.Year, time.Month, time.Day, time.Hour, time.Minute, time.Second,
    time.secondsPerDay.
  pose proof (civil_from_days_spec (time.unixSec t / 86400)) as H.
  destruct (time.civil_from_days (time.unixSec t / 86400)) as [[y m] d].
  destruct H as (Hm & Hd & Hback). cbn [fst snd]. rewrite Hback.
  repeat split; try tauto; Z.div_mod_to_equations; lia.
Qed.

(** The layout of [dateFormat], element by element. *)
Lemma FormatUTC_dateFormat (t : time.Time) :
  time.FormatUTC t dateFormat =
    appendInt (time.Year t) 4 ++ "-" ++ appendInt (time.Month t) 2 ++ "-" ++
    appendInt (time.Day t) 2 ++ " " ++ appendInt (time.Hour t) 2 ++ ":" ++
    appendInt (time.Minute t) 2 ++ ":" ++ appendInt (time.Second t) 2 ++ " UTC".
Proof.
  unfold time.FormatUTC.
  change (time.layout_chunks (String.length dateFormat) dateFormat) with
    [time.stdLongYear; time.literal "-"; time.stdZeroMonth; time.literal "-";
     time.stdZeroDay; time.literal " "; time.stdHour; time.literal ":";
     time.stdZeroMinute; time.literal ":"; time.stdZeroSecond; time.literal " ";
     time.stdTZ].
  cbn [map String.concat time.format_chunk].
  repeat rewrite append_assoc. reflexivity.
Qed.


(** ** Counting *)

Lemma count_above_antitone (m1 m2 : float64) (fs : list Feature) :
  float64_le m1 m2 = true -> count_above m2 fs <= count_above m1 fs.
Proof.
  intros Hle. unfold count_above.
  apply inj_le.
  induction fs as [|f fs IH]; simpl; [lia|].
  destruct (selected m2 f) eqn:E2.
  - unfold selected in *.
    rewrite (float64_le_gt_trans m1 m2 _ Hle E2). simpl. lia.
  - destruct (selected m1 f); simpl; lia.
Qed.

Lemma rangeFeatures_total (m : float64) (fs : list Feature) :
  forall (t : Z) (c : console),
    Forall has_lon_lat (filter (selected m) fs) ->
    exists n c', rangeFeatures m fs t c = (inl n, c').
Proof.
  induction fs as [|f fs IH]; intros t c Hok.
  - simpl. eexists _, _. reflexivity.
  - cbn [rangeFeatures filter] in *. fold (selected m f) in *.
    destruct (selected m f) eqn:Hsel.
    + inversion Hok as [|? ? Hf Hrest]; subst.
      unfold bind. rewrite (printEarthquakeInfo_block f c Hf).
      now apply IH.
    + now apply IH.
Qed.

(** ** The pipeline *)

Section Pipeline.

Variable ParseFloat : string -> option float64.

(** After a successful fetch [listQuakes] prints the header and runs the
    loop from a count of 0. *)
Lemma listQuakes_fetched (net : network) (q : Earthquake) (m : float64) (c : console) :
  fetchEarthquakeData ParseFloat net = inl q ->
  listQuakes ParseFloat net m c =
    rangeFeatures m (Features q) 0 (mkConsole (stdout c ++ header m) (logged c)).
Proof.
  intros Hfetch. unfold listQuakes. rewrite Hfetch.
  unfold bind, Println, Printf, header. cbn [stdout logged].
  rewrite !append_assoc. reflexivity.
Qed.

Lemma listQuakes_returns (net : network) (q : Earthquake) (m : float64) (c : console) :
  fetchEarthquakeData ParseFloat net = inl q ->
  Z.of_nat (List.length (Features q)) <= int_max ->
  Forall has_lon_lat (filter (selected m) (Features q)) ->
  listQuakes ParseFloat net m c =
    (inl (count_above m (Features q)),
     mkConsole (stdout c ++ header m ++ blocks m (Features q)) (logged c)).
Proof.
  intros Hfetch Hlen Hok. rewrite (listQuakes_fetched net q m c Hfetch).
  rewrite rangeFeatures_ok by (auto; lia).
  cbn [stdout logged]. now rewrite append_assoc.
Qed.

Lemma listQuakes_returned (net : network) (q : Earthquake) (m : float64)
  (c c' : console) (n : Z) :
  fetchEarthquakeData ParseFloat net = inl q ->
  Z.of_nat (List.length (Features q)) <= int_max ->
  listQuakes ParseFloat net m c = (inl n, c') ->
  Forall has_lon_lat (filter (selected m) (Features q)) /\
  n = count_above m (Features q).
Proof.
  intros Hfetch Hlen H.
  assert (Hok : Forall has_lon_lat (filter (selected m) (Features q))).
  { rewrite (listQuakes_fetched net q m c Hfetch) in H.
    eapply rangeFeatures_returns; eassumption. }
  split; [exact Hok|].
  rewrite (listQuakes_returns net q m c Hfetch Hlen Hok) in H. congruence.
Qed.

(** The argument parser always returns a threshold; it writes nothing to
    standard output and at most its one warning to the log. *)
Lemma parseMinimumMagnitude_returns (args : list string) (c : console) :
  exists m w,
    parseMinimumMagnitude ParseFloat args c =
      (inl m, mkConsole (stdout c) (logged c ++ w)) /\
    (w = [] \/ w = [warning]).
Proof.
  unfold parseMinimumMagnitude.
  destruct args as [|prog [|arg1 rest]];
    try solve [exists float64_zero, []; rewrite app_nil_r; destruct c; auto].
  destruct (ParseFloat arg1) as [n|].
  - exists n, []. rewrite app_nil_r. destruct c; auto.
  - exists float64_zero, [warning]. auto.
Qed.

Lemma store_coordinates (lits : list string) (xs : list float64) :
  Forall2 (fun lit x => ParseFloat lit = Some x) lits xs ->
  forall old,
    json_decode.store_elems (json_decode.store_float64 ParseFloat) float64_zero
      (map JNumber lits) old = inl xs.
Proof.
  induction 1 as [|lit x lits xs Hx Hrest IH]; intros old; simpl.
  - reflexivity.
  - destruct old as [|o old']; rewrite Hx, IH; reflexivity.
Qed.

End Pipeline.

(** ** Formatting *)

(** [round_half_even num den] is an integer nearest to [num / den], the even
    one of the two when [num / den] lies half way between them. *)
Lemma round_half_even_nearest (num den : Z) :
  0 < den ->
  Z.abs (2 * num - 2 * round_half_even num den * den) <= den /\
  (Z.abs (2 * num - 2 * round_half_even num den * den) = den ->
   Z.even (round_half_even num den) = true).
Proof.
  intros Hden. unfold round_half_even.
  pose proof (Z.div_mod num den ltac:(lia)) as Hdm.
  pose proof (Z.mod_pos_bound num den Hden) as Hr.
  set (q := num / den) in *. set (r := num mod den) in *.
  assert (Hq : 2 * num - 2 * q * den = 2 * r) by lia.
  assert (Hq1 : 2 * num - 2 * (q + 1) * den = 2 * r - 2 * den) by lia.
  destruct (Z.compare_spec (2 * r) den) as [E|E|E].
  - destruct (Z.even q) eqn:Ev.
    + rewrite Hq. split; [lia | auto].
    + rewrite Hq1. split; [lia|]. intros _.
      rewrite Z.even_add, Ev. reflexivity.
  - rewrite Hq. split; lia.
  - rewrite Hq1. split; lia.
Qed.

Lemma zeros_snoc (n : nat) : zeros n ++ "0" = zeros (S n).
Proof.
  induction n as [|n IH]; simpl; [reflexivity | now rewrite IH].
Qed.

(** A zero is printed as [0.00...0], after its sign. *)
Lemma fmt_f_zero (prec : nat) (s : bool) :
  (1 <= prec)%nat ->
  fmt_f prec (S754_zero s) = sign_text s ++ "0." ++ zeros prec.
Proof.
  intros Hp. unfold fmt_f, fixed_digits.
  assert (Hpos : 0 < 10 ^ Z.of_nat prec) by (apply Z.pow_pos_nonneg; lia).
  rewrite Z.mod_0_l, Z.div_0_l by lia.
  change (utoa 0) with "0".
  destruct prec as [|p]; [lia|].
  cbn [String.length]. replace (S p - 1)%nat with p by lia.
  now rewrite zeros_snoc.
Qed.

(** The digits after the point are exactly [prec] many. *)
Lemma fixed_digits_shape (prec : nat) (n : Z) :
  (1 <= prec)%nat ->
  exists frac,
    fixed_digits prec n = utoa (n / 10 ^ Z.of_nat prec) ++ "." ++ frac /\
    String.length frac = prec /\
    exists pad, frac = zeros pad ++ utoa (n mod 10 ^ Z.of_nat prec).
Proof.
  intros Hp. unfold fixed_digits.
  destruct prec as [|p]; [lia|].
  set (k := S p) in *.
  exists (zeros (k - String.length (utoa (n mod 10 ^ Z.of_nat k))) ++
          utoa (n mod 10 ^ Z.of_nat k)).
  split; [reflexivity|]. split; [|eexists; reflexivity].
  rewrite length_append, length_zeros.
  assert (Hpos : 0 < 10 ^ Z.of_nat k) by (apply Z.pow_pos_nonneg; lia).
  pose proof (Z.mod_pos_bound n (10 ^ Z.of_nat k) Hpos) as Hb.
  pose proof (utoa_length k _ Hp Hb). lia.
Qed.

(* ================================================================== *)
(** * The claims *)

(** C1.  For every decoded feed and every threshold [m], the count that
    [listQuakes] returns is the number of records whose magnitude is strictly
    greater than [m]: whenever a count is returned it is that number, and it
    is returned, after the header and the blocks of exactly those records,
    as soon as the selected records have their two coordinates.  A record
    whose magnitude equals the threshold is not selected: it is neither
    among the records counted nor among those whose blocks are printed.
    (A Go slice holds fewer than 2^63 elements, which is the bound on the
    feed.) *)
Theorem C1_count_is_strictly_above (ParseFloat : string -> option float64)
  (net : network) (q : Earthquake) (m : float64) (c : console) :
  fetchEarthquakeData ParseFloat net = inl q ->
  Z.of_nat (List.length (Features q)) <= int_max ->
  (forall n c',
     listQuakes ParseFloat net m c = (inl n, c') -> n = count_above m (Features q)) /\
  (Forall has_lon_lat (filter (selected m) (Features q)) ->
   listQuakes ParseFloat net m c =
     (inl (count_above m (Features q)),
      mkConsole (stdout c ++ header m ++ blocks m (Features q)) (logged c))) /\
  (forall f, In f (Features q) ->
     float64_eq (Mag (Properties f)) m = true ->
     float64_gt (Mag (Properties f)) m = false /\
     ~ In f (filter (selected m) (Features q))).
Proof.
  intros Hfetch Hlen. split; [|split].
  - intros n c' H.
    now destruct (listQuakes_returned ParseFloat net q m c c' n Hfetch Hlen H).
  - intros Hok. now apply listQuakes_returns.
  - intros f _ Heq. split; [now apply float64_eq_not_gt|].
    intros Hin. apply filter_In in Hin. destruct Hin as [_ Hsel].
    unfold selected in Hsel.
    rewrite (float64_eq_not_gt _ _ Heq) in Hsel. discriminate.
Qed.

(** On the sample feed with threshold 5.0 the record of magnitude 5.0 is left
    out and one record is counted. *)
Lemma C1_witness :
  fetchEarthquakeData decimal.ParseFloat sample_net = inl sample_feed /\
  Z.of_nat (List.length (Features sample_feed)) <= int_max /\
  Forall has_lon_lat (filter (selected five) (Features sample_feed)) /\
  fst (listQuakes decimal.ParseFloat sample_net five console0) = inl 1.
Proof.
  assert (Hfetch : fetchEarthquakeData decimal.ParseFloat sample_net = inl sample_feed)
    by (vm_compute; reflexivity).
  assert (Hlen : Z.of_nat (List.length (Features sample_feed)) <= int_max)
    by (vm_compute; discriminate).
  assert (Hok : Forall has_lon_lat (filter (selected five) (Features sample_feed)))
    by (repeat constructor).
  split; [exact Hfetch|]. split; [exact Hlen|]. split; [exact Hok|].
  destruct (C1_count_is_strictly_above decimal.ParseFloat sample_net sample_feed
              five console0 Hfetch Hlen) as (_ & Hret & _).
  rewrite (Hret Hok). reflexivity.
Defined.

(** C2.  A failure of the request gives a transport error and a body that is
    not well-formed JSON (a truncated one, for instance) gives a syntax
    error; on any error of the fetch or of the decoding the run writes
    nothing at all to standard output, logs the fatal record that carries the
    error itself, after at most the argument parser's warning, and ends with
    exit status 1. *)
Theorem C2_fetch_or_decode_failure_is_fatal (ParseFloat : string -> option float64) :
  (forall cause,
     fetchEarthquakeData ParseFloat (Unreachable cause) = inr (TransportError cause)) /\
  (forall cause,
     fetchEarthquakeData ParseFloat (Responds (Malformed cause)) =
       inr (SyntaxError cause)) /\
  (forall args net err,
     fetchEarthquakeData ParseFloat net = inr err ->
     exists warnings,
       run ParseFloat args net =
         (inr (OsExit 1),
          mkConsole ""
            (warnings ++ [LogFatalf "Failed to fetch earthquake data: " err])) /\
       (warnings = [] \/ warnings = [warning]) /\
       exit_status (fst (run ParseFloat args net)) <> 0).
Proof.
  split; [reflexivity|]. split; [reflexivity|].
  intros args net err Hfetch.
  destruct (parseMinimumMagnitude_returns ParseFloat args console0)
    as (m & w & Hp & Hw).
  exists w.
  assert (Hrun : run ParseFloat args net =
            (inr (OsExit 1),
             mkConsole "" (w ++ [LogFatalf "Failed to fetch earthquake data: " err]))).
  { unfold run, main, bind. rewrite Hp.
    unfold listQuakes. rewrite Hfetch. reflexivity. }
  rewrite Hrun. repeat split; auto. simpl. lia.
Qed.

(** A truncated body: nothing on standard output, the syntax error in the
    fatal record, exit status 1. *)
Lemma C2_witness :
  fetchEarthquakeData decimal.ParseFloat truncated_net =
    inr (SyntaxError "unexpected EOF") /\
  exists warnings,
    run decimal.ParseFloat ["eqk"; "4.5"] truncated_net =
      (inr (OsExit 1),
       mkConsole ""
         (warnings ++
          [LogFatalf "Failed to fetch earthquake data: "
             (SyntaxError "unexpected EOF")])) /\
    (warnings = [] \/ warnings = [warning]) /\
    exit_status (fst (run decimal.ParseFloat ["eqk"; "4.5"] truncated_net)) <> 0.
Proof.
  assert (Hfetch : fetchEarthquakeData decimal.ParseFloat truncated_net =
                   inr (SyntaxError "unexpected EOF")) by reflexivity.
  split; [exact Hfetch|].
  destruct (C2_fetch_or_decode_failure_is_fatal decimal.ParseFloat) as (_ & _ & H).
  exact (H ["eqk"; "4.5"] truncated_net _ Hfetch).
Defined.

(** The same run, evaluated. *)
Example truncated_body_run :
  run decimal.ParseFloat ["eqk"; "4.5"] truncated_net =
    (inr (OsExit 1),
     mkConsole ""
       [LogFatalf "Failed to fetch earthquake data: " (SyntaxError "unexpected EOF")]).
Proof. vm_compute. reflexivity. Qed.

(** A magnitude given as a string is a decode failure of the other kind. *)
Example mistyped_magnitude_is_fatal :
  run decimal.ParseFloat ["eqk"] mistyped_net =
    (inr (OsExit 1),
     mkConsole ""
       [LogFatalf "Failed to fetch earthquake data: "
          (UnmarshalTypeError "string" TFloat64)]).
Proof. vm_compute. reflexivity. Qed.

(** C3.  With a first argument that parses, the threshold is the parsed
    number and nothing is logged; with a first argument that does not parse,
    the threshold is 0 and the warning is logged; without a first argument
    the threshold is 0 and nothing is logged.  Standard output is untouched
    in all three cases. *)
Theorem C3_argument_parsing (ParseFloat : string -> option float64)
  (args : list string) (c : console) :
  (forall prog arg1 rest n,
     args = prog :: arg1 :: rest -> ParseFloat arg1 = Some n ->
     parseMinimumMagnitude ParseFloat args c = (inl n, c)) /\
  (forall prog arg1 rest,
     args = prog :: arg1 :: rest -> ParseFloat arg1 = None ->
     parseMinimumMagnitude ParseFloat args c =
       (inl float64_zero, mkConsole (stdout c) (logged c ++ [warning]))) /\
  ((List.length args <= 1)%nat ->
   parseMinimumMagnitude ParseFloat args c = (inl float64_zero, c)).
Proof.
  repeat split.
  - intros prog arg1 rest n -> H. simpl. now rewrite H.
  - intros prog arg1 rest -> H. simpl. now rewrite H.
  - intros H. destruct args as [|prog [|arg1 rest]]; simpl in *; try reflexivity.
    lia.
Qed.

(** ["5"] parses and becomes the threshold; ["abc"] does not, the threshold
    falls back to 0 and the warning is logged; no argument gives 0. *)
Lemma C3_witness :
  (decimal.ParseFloat "abc" = None /\
   parseMinimumMagnitude decimal.ParseFloat ["eqk"; "abc"] console0 =
     (inl float64_zero, mkConsole "" [warning])) /\
  (decimal.ParseFloat "5" = Some five /\
   parseMinimumMagnitude decimal.ParseFloat ["eqk"; "5"] console0 =
     (inl five, console0)) /\
  ((List.length ["eqk"] <= 1)%nat /\
   parseMinimumMagnitude decimal.ParseFloat ["eqk"] console0 =
     (inl float64_zero, console0)).
Proof.
  split; [|split].
  - split; [reflexivity|].
    destruct (C3_argument_parsing decimal.ParseFloat ["eqk"; "abc"] console0)
      as (_ & H & _).
    apply (H "eqk" "abc" []); reflexivity.
  - split; [vm_compute; reflexivity|].
    destruct (C3_argument_parsing decimal.ParseFloat ["eqk"; "5"] console0)
      as (H & _ & _).
    apply (H "eqk" "5" []); vm_compute; reflexivity.
  - split; [simpl; lia|].
    destruct (C3_argument_parsing decimal.ParseFloat ["eqk"] console0)
      as (_ & _ & H).
    apply H. simpl; lia.
Defined.

(** C4, as the code has it.  Longitude and latitude are extracted exactly
    when the record has at least two coordinates.  The decoder stores a
    coordinates array of any length, also of length 0 or 1, without an
    error; printing a record with fewer than two coordinates stops the run
    with an index out of range; and [listQuakes] returns exactly when the
    records the threshold selects have their two coordinates, the other
    records never being indexed. *)
Theorem C4_short_coordinates_panic (ParseFloat : string -> option float64) :
  (forall f c, (exists c', printEarthquakeInfo f c = (inl tt, c')) <-> has_lon_lat f) /\
  (forall f c,
     ~ has_lon_lat f ->
     exists c',
       printEarthquakeInfo f c =
         (inr (Panic (IndexOutOfRange
                        (Z.of_nat (List.length (Coordinates (Geometry f))))
                        (Z.of_nat (List.length (Coordinates (Geometry f)))))), c')) /\
  (forall lits xs g,
     Forall2 (fun lit x => ParseFloat lit = Some x) lits xs ->
     json_decode.field_Geometry ParseFloat "coordinates" (JArray (map JNumber lits)) g =
       inl (mkGeometry (GeometryType g) xs)) /\
  (forall net q m c,
     fetchEarthquakeData ParseFloat net = inl q ->
     ((exists n c', listQuakes ParseFloat net m c = (inl n, c')) <->
      Forall has_lon_lat (filter (selected m) (Features q)))).
Proof.
  split; [|split; [|split]].
  - intros f c. split.
    + intros [c' H].
      destruct (Nat.le_gt_cases 2 (List.length (Coordinates (Geometry f))))
        as [Hl|Hl]; [exact Hl|].
      rewrite printEarthquakeInfo_short in H by (unfold has_lon_lat; lia).
      discriminate.
    + intros H. eexists. now apply printEarthquakeInfo_block.
  - intros f c H. eexists. now apply printEarthquakeInfo_short.
  - intros lits xs g H.
    unfold json_decode.field_Geometry.
    change (json_decode.selects "coordinates" "type") with false.
    change (json_decode.selects "coordinates" "coordinates") with true.
    cbn [json_decode.store_slice].
    now rewrite (store_coordinates ParseFloat lits xs H).
  - intros net q m c Hfetch.
    rewrite (listQuakes_fetched ParseFloat net q m c Hfetch). split.
    + intros (n & c' & H). eapply rangeFeatures_returns; eassumption.
    + intros H. now apply rangeFeatures_total.
Qed.

(** A record with one coordinate is decoded as it is and cannot be printed;
    on the feed with a record without coordinates [listQuakes] does not
    return at threshold 0 and does at threshold 6.1 and above. *)
Lemma C4_witness :
  (Forall2 (fun lit x => decimal.ParseFloat lit = Some x) ["10.0"] [depth_sf] /\
   json_decode.field_Geometry decimal.ParseFloat "coordinates"
     (JArray (map JNumber ["10.0"])) Geometry0 = inl (mkGeometry "" [depth_sf])) /\
  (~ has_lon_lat (mkFeature "" Properties0 (mkGeometry "" [depth_sf])) /\
   exists c',
     printEarthquakeInfo (mkFeature "" Properties0 (mkGeometry "" [depth_sf]))
       console0 = (inr (Panic (IndexOutOfRange 1 1)), c')) /\
  (fetchEarthquakeData decimal.ParseFloat sample_net = inl sample_feed /\
   exists n c', listQuakes decimal.ParseFloat sample_net five console0 = (inl n, c')).
Proof.
  destruct (C4_short_coordinates_panic decimal.ParseFloat)
    as (_ & Hpanic & Hdec & Hret).
  split; [|split].
  - assert (H2 : Forall2 (fun lit x => decimal.ParseFloat lit = Some x)
                   ["10.0"] [depth_sf]) by (repeat constructor).
    split; [exact H2 | exact (Hdec _ _ Geometry0 H2)].
  - assert (Hshort : ~ has_lon_lat
                         (mkFeature "" Properties0 (mkGeometry "" [depth_sf])))
      by (unfold has_lon_lat; simpl; lia).
    split; [exact Hshort | exact (Hpanic _ console0 Hshort)].
  - assert (Hfetch : fetchEarthquakeData decimal.ParseFloat sample_net =
                     inl sample_feed) by (vm_compute; reflexivity).
    split; [exact Hfetch|].
    apply (Hret sample_net sample_feed five console0 Hfetch).
    repeat constructor.
Defined.

(** C4 as it is stated fails: a feed with a record without coordinates is
    decoded without an error, and the run that selects that record ends in
    an index out of range, after the header, the block of the record before
    it and the first three lines of its own block. *)
Lemma C4_counterexample :
  fetchEarthquakeData decimal.ParseFloat short_net = inl short_feed /\
  ~ Forall has_lon_lat (Features short_feed) /\
  run decimal.ParseFloat ["eqk"] short_net =
    (inr (Panic (IndexOutOfRange 0 0)),
     mkConsole
       (header float64_zero ++
        block (nth 0 (Features short_feed) Feature0) ++
        block_head (nth 1 (Features short_feed) Feature0))
       []).
Proof.
  split; [vm_compute; reflexivity|]. split.
  - intros H. inversion H as [|? ? _ H1]; subst.
    inversion H1 as [|? ? H2 _]; subst.
    unfold has_lon_lat in H2. simpl in H2. lia.
  - vm_compute. reflexivity.
Qed.

(** C5.  The [Time:] line of a record's block, which is printed whether or
    not the record has coordinates, carries the record's event time,
    milliseconds since the epoch, in UTC under [dateFormat]: the year on at
    least four digits, month, day, hour, minute and second on two digits
    each, and the abbreviation [UTC].  The fields are a date of the
    Gregorian calendar and a time of day, and they denote the second the
    event time falls in.  For a year from 0 to 9999 the text has exactly the
    23 characters of [YYYY-MM-DD HH:MM:SS UTC].  The event time
    1700000000000 prints as [2023-11-14 22:13:20 UTC]. *)
Theorem C5_event_time_in_UTC :
  (forall f c,
     exists r c' rest,
       printEarthquakeInfo f c = (r, c') /\
       stdout c' =
         stdout c ++
         "Epicenter: " ++ Place (Properties f) ++ LF ++
         "Magnitude: " ++ fmt_f 1 (Mag (Properties f)) ++ LF ++
         "Time: " ++ timestamp (Time (Properties f)) ++ LF ++ rest) /\
  (forall msec,
     exists Y M D h mi s,
       timestamp msec =
         appendInt Y 4 ++ "-" ++ appendInt M 2 ++ "-" ++ appendInt D 2 ++ " " ++
         appendInt h 2 ++ ":" ++ appendInt mi 2 ++ ":" ++ appendInt s 2 ++ " UTC" /\
       Y = time.Year (time.UnixMilli msec) /\
       1 <= M <= 12 /\ 1 <= D <= time.days_in_month Y M /\
       0 <= h < 24 /\ 0 <= mi < 60 /\ 0 <= s < 60 /\
       0 <= msec - 1000 * (86400 * time.days_from_civil Y M D
                           + 3600 * h + 60 * mi + s) < 1000) /\
  (forall msec,
     0 <= time.Year (time.UnixMilli msec) <= 9999 ->
     String.length (timestamp msec) = 23%nat) /\
  timestamp 1700000000000 = "2023-11-14 22:13:20 UTC".
Proof.
  split; [|split; [|split]].
  - intros f c.
    destruct (Nat.le_gt_cases 2 (List.length (Coordinates (Geometry f)))) as [Hl|Hl].
    + eexists _, _, _. split; [apply printEarthquakeInfo_block; exact Hl|].
      cbn [stdout]. unfold block, block_of, block_head.
      rewrite !append_assoc. reflexivity.
    + eexists _, _, _.
      split; [apply printEarthquakeInfo_short; unfold has_lon_lat; lia|].
      cbn [stdout]. unfold block_head. rewrite !append_assoc. reflexivity.
  - intros msec. unfold timestamp.
    set (t := time.UnixMilli msec).
    exists (time.Year t), (time.Month t), (time.Day t),
           (time.Hour t), (time.Minute t), (time.Second t).
    destruct (time_fields t) as (HM & HD & Hh & Hmi & Hs & Hsec).
    pose proof (UnixMilli_sec msec) as Hms. fold t in Hms.
    split; [apply FormatUTC_dateFormat|].
    split; [reflexivity|].
    split; [exact HM|]. split; [exact HD|]. split; [exact Hh|].
    split; [exact Hmi|]. split; [exact Hs|]. lia.
  - intros msec HY. unfold timestamp.
    set (t := time.UnixMilli msec) in *.
    destruct (time_fields t) as (HM & HD & Hh & Hmi & Hs & _).
    assert (HD31 : time.Day t <= 31).
    { unfold time.days_in_month in HD.
      destruct (time.Month t =? 2); [destruct (time.is_leap _); lia|].
      destruct (_ || _); lia. }
    rewrite FormatUTC_dateFormat, !length_append.
    rewrite (appendInt_length 4 (time.Year t)) by (simpl; lia).
    rewrite !(appendInt_length 2) by (simpl; lia).
    reflexivity.
  - vm_compute. reflexivity.
Qed.

(** The event time 1700000000000: year 2023, so 23 characters. *)
Lemma C5_witness :
  0 <= time.Year (time.UnixMilli 1700000000000) <= 9999 /\
  String.length (timestamp 1700000000000) = 23%nat.
Proof.
  assert (H : 0 <= time.Year (time.UnixMilli 1700000000000) <= 9999)
    by (vm_compute; split; discriminate).
  split; [exact H|].
  destruct C5_event_time_in_UTC as (_ & _ & Hlen & _).
  exact (Hlen 1700000000000 H).
Defined.

(** Outside the years 0 to 9999 Go prints the year as it is: five digits
    for the year 10000, a sign for the year before the year 0. *)
Example timestamp_wide_years :
  timestamp 253402300800000 = "10000-01-01 00:00:00 UTC" /\
  timestamp (-62198755200000) = "-0001-01-01 00:00:00 UTC" /\
  timestamp (-1) = "1969-12-31 23:59:59 UTC".
Proof. repeat split; vm_compute; reflexivity. Qed.

(** C6.  A record with at least two coordinates is printed as this block:
    the place, the magnitude under [%.1f], the event time, the first
    coordinate under [%.4f] as longitude, the second as latitude, and the
    separator; the coordinates after the second, the depth among them, do
    not occur in it.  [%.Nf] of a finite float64 [m * 2^e] is its sign, the
    integer part, a point and exactly N digits, those of the integer nearest
    to [m * 2^e * 10^N] (the even one on a tie), and of a zero it is [0.]
    followed by N zeros.  The coordinates
    [-122.4194, 37.7749, 10.0] print as longitude [-122.4194] and latitude
    [37.7749]. *)
Theorem C6_block_fields :
  (forall f lon lat rest c,
     Coordinates (Geometry f) = lon :: lat :: rest ->
     printEarthquakeInfo f c =
       (inl tt,
        mkConsole
          (stdout c ++
           "Epicenter: " ++ Place (Properties f) ++ LF ++
           "Magnitude: " ++ fmt_f 1 (Mag (Properties f)) ++ LF ++
           "Time: " ++ timestamp (Time (Properties f)) ++ LF ++
           "Longitude: " ++ fmt_f 4 lon ++ LF ++
           "Latitude: " ++ fmt_f 4 lat ++ LF ++
           separator ++ LF)
          (logged c))) /\
  (forall prec s m e,
     (1 <= prec)%nat ->
     exists N frac,
       fmt_f prec (S754_finite s m e) =
         sign_text s ++ utoa (N / 10 ^ Z.of_nat prec) ++ "." ++ frac /\
       String.length frac = prec /\
       (exists pad, frac = zeros pad ++ utoa (N mod 10 ^ Z.of_nat prec)) /\
       (0 <= e -> N = Zpos m * 2 ^ e * 10 ^ Z.of_nat prec) /\
       (e < 0 ->
        Z.abs (2 * (Zpos m * 10 ^ Z.of_nat prec) - 2 * N * 2 ^ (- e)) <= 2 ^ (- e) /\
        (Z.abs (2 * (Zpos m * 10 ^ Z.of_nat prec) - 2 * N * 2 ^ (- e)) = 2 ^ (- e) ->
         Z.even N = true))) /\
  (forall prec s,
     (1 <= prec)%nat ->
     fmt_f prec (S754_zero s) = sign_text s ++ "0." ++ zeros prec) /\
  (map decimal.ParseFloat ["-122.4194"; "37.7749"; "10.0"] =
     [Some lon_sf; Some lat_sf; Some depth_sf] /\
   fmt_f 4 lon_sf = "-122.4194" /\ fmt_f 4 lat_sf = "37.7749" /\
   printEarthquakeInfo feature_sf console0 =
     (inl tt,
      mkConsole
        ("Epicenter: San Francisco, CA" ++ LF ++
         "Magnitude: 5.5" ++ LF ++
         "Time: 2023-11-14 22:13:20 UTC" ++ LF ++
         "Longitude: -122.4194" ++ LF ++
         "Latitude: 37.7749" ++ LF ++
         separator ++ LF)
        [])).
Proof.
  split; [|split; [|split]].
  - intros f lon lat rest c H.
    rewrite (printEarthquakeInfo_ok f lon lat rest c H).
    unfold block_of, block_head. rewrite !append_assoc. reflexivity.
  - intros prec s m e Hp.
    destruct (fixed_digits_shape prec (scaled_decimal prec m e) Hp)
      as (frac & Hfmt & Hlen & Hpad).
    exists (scaled_decimal prec m e), frac.
    split; [simpl; now rewrite Hfmt|]. split; [exact Hlen|]. split; [exact Hpad|].
    unfold scaled_decimal. split.
    + intros He. apply Z.leb_le in He. now rewrite He.
    + intros He.
      assert (E : (0 <=? e) = false) by (apply Z.leb_gt; lia). rewrite E.
      apply round_half_even_nearest. apply Z.pow_pos_nonneg; lia.
  - intros prec s Hp. now apply fmt_f_zero.
  - repeat split; vm_compute; reflexivity.
Qed.

(** The sample record, through the general statement. *)
Lemma C6_witness :
  Coordinates (Geometry feature_sf) = lon_sf :: lat_sf :: [depth_sf] /\
  (1 <= 4)%nat /\
  printEarthquakeInfo feature_sf console0 =
    (inl tt,
     mkConsole
       (stdout console0 ++
        "Epicenter: " ++ Place (Properties feature_sf) ++ LF ++
        "Magnitude: " ++ fmt_f 1 (Mag (Properties feature_sf)) ++ LF ++
        "Time: " ++ timestamp (Time (Properties feature_sf)) ++ LF ++
        "Longitude: " ++ fmt_f 4 lon_sf ++ LF ++
        "Latitude: " ++ fmt_f 4 lat_sf ++ LF ++
        separator ++ LF)
       (logged console0)) /\
  exists N frac,
    fmt_f 4 lon_sf = sign_text true ++ utoa (N / 10 ^ Z.of_nat 4) ++ "." ++ frac /\
    String.length frac = 4%nat.
Proof.
  destruct C6_block_fields as (Hblock & Hfmt & _ & _).
  split; [reflexivity|]. split; [lia|].
  split; [apply (Hblock feature_sf lon_sf lat_sf [depth_sf] console0 eq_refl)|].
  destruct (Hfmt 4%nat true 8614499440983120%positive (-46) ltac:(lia))
    as (N & frac & H1 & H2 & _).
  exists N, frac. split; [exact H1 | exact H2].
Defined.

(** C7, on the code.  The struct field is declared [Meta Metadata] without a
    tag, so the document's [metadata] member selects no field and is
    skipped whatever it holds: the sample feed is decoded with its type and
    its records and with [Meta] left at its zero value.  The same metadata
    under the key [Meta] is decoded into the six attributes. *)
Theorem C7_metadata_member_is_skipped :
  (forall ParseFloat v q,
     json_decode.field_Earthquake ParseFloat "metadata" v q = inl q) /\
  (fetchEarthquakeData decimal.ParseFloat sample_net = inl sample_feed /\
   EarthquakeType sample_feed = "FeatureCollection" /\
   List.length (Features sample_feed) = 3%nat /\
   Meta sample_feed = Metadata0) /\
  (exists q,
     fetchEarthquakeData decimal.ParseFloat meta_net = inl q /\
     Meta q = mkMetadata 1700000100000 EarthquakeAPIURL
                "USGS Significant Earthquakes, Past Month" 200 "1.10.3" 3).
Proof.
  split; [reflexivity|]. split.
  - repeat split; vm_compute; reflexivity.
  - exists (decoded meta_net). split; vm_compute; reflexivity.
Qed.

(** C8.  After a successful fetch: with threshold 0 and a feed without
    records, standard output is the header followed at once by the line
    [Total number of Earthquakes: 0] and the exit status is 0; and in
    general standard output is the header, then the blocks of the selected
    records in the order of the feed, then the summary line with their
    number, again with exit status 0 (for a feed that fits a Go slice and
    whose selected records have their two coordinates). *)
Theorem C8_header_blocks_summary (ParseFloat : string -> option float64)
  (args : list string) (net : network) (q : Earthquake) (m : float64) (c0 : console) :
  fetchEarthquakeData ParseFloat net = inl q ->
  parseMinimumMagnitude ParseFloat args console0 = (inl m, c0) ->
  (m = float64_zero -> Features q = [] ->
   run ParseFloat args net =
     (inl tt,
      mkConsole
        (separator ++ LF ++
         "Earthquake(s) with magnitude 0.0 or higher in the last 30 days:" ++ LF ++
         separator ++ LF ++
         "Total number of Earthquakes: 0" ++ LF)
        (logged c0)) /\
   exit_status (fst (run ParseFloat args net)) = 0) /\
  (Z.of_nat (List.length (Features q)) <= int_max ->
   Forall has_lon_lat (filter (selected m) (Features q)) ->
   run ParseFloat args net =
     (inl tt,
      mkConsole
        (header m ++ blocks m (Features q) ++ summary (count_above m (Features q)))
        (logged c0)) /\
   exit_status (fst (run ParseFloat args net)) = 0).
Proof.
  intros Hfetch Hparse.
  destruct (parseMinimumMagnitude_returns ParseFloat args console0)
    as (m' & w & Hp & _).
  rewrite Hparse in Hp. injection Hp as <- ->.
  assert (Hgen : Z.of_nat (List.length (Features q)) <= int_max ->
                 Forall has_lon_lat (filter (selected m) (Features q)) ->
                 run ParseFloat args net =
                   (inl tt,
                    mkConsole
                      (header m ++ blocks m (Features q) ++
                       summary (count_above m (Features q)))
                      ([] ++ w))).
  { intros Hlen Hok. unfold run, main, bind. rewrite Hparse.
    rewrite (listQuakes_returns ParseFloat net q m _ Hfetch Hlen Hok).
    unfold Printf, summary. cbn [stdout logged].
    rewrite !append_assoc. reflexivity. }
  split.
  - intros -> Hnil.
    assert (Hrun := Hgen).
    rewrite Hnil in Hrun.
    specialize (Hrun ltac:(vm_compute; discriminate) ltac:(constructor)).
    rewrite Hrun. split; reflexivity.
  - intros Hlen Hok. rewrite (Hgen Hlen Hok). split; reflexivity.
Qed.

(** The empty feed without arguments, and the sample feed at threshold 5. *)
Lemma C8_witness :
  (fetchEarthquakeData decimal.ParseFloat empty_net = inl (decoded empty_net) /\
   parseMinimumMagnitude decimal.ParseFloat ["eqk"] console0 =
     (inl float64_zero, console0) /\
   Features (decoded empty_net) = [] /\
   run decimal.ParseFloat ["eqk"] empty_net =
     (inl tt,
      mkConsole
        (separator ++ LF ++
         "Earthquake(s) with magnitude 0.0 or higher in the last 30 days:" ++ LF ++
         separator ++ LF ++
         "Total number of Earthquakes: 0" ++ LF)
        [])) /\
  (fetchEarthquakeData decimal.ParseFloat sample_net = inl sample_feed /\
   parseMinimumMagnitude decimal.ParseFloat ["eqk"; "5"] console0 =
     (inl five, console0) /\
   Z.of_nat (List.length (Features sample_feed)) <= int_max /\
   Forall has_lon_lat (filter (selected five) (Features sample_feed)) /\
   run decimal.ParseFloat ["eqk"; "5"] sample_net =
     (inl tt,
      mkConsole
        (header five ++ blocks five (Features sample_feed) ++
         summary (count_above five (Features sample_feed)))
        [])).
Proof.
  split.
  - assert (Hfetch : fetchEarthquakeData decimal.ParseFloat empty_net =
                     inl (decoded empty_net)) by (vm_compute; reflexivity).
    assert (Hparse : parseMinimumMagnitude decimal.ParseFloat ["eqk"] console0 =
                     (inl float64_zero, console0)) by reflexivity.
    assert (Hnil : Features (decoded empty_net) = []) by (vm_compute; reflexivity).
    split; [exact Hfetch|]. split; [exact Hparse|]. split; [exact Hnil|].
    destruct (C8_header_blocks_summary decimal.ParseFloat ["eqk"] empty_net
                (decoded empty_net) float64_zero console0 Hfetch Hparse)
      as (H & _).
    destruct (H eq_refl Hnil) as (Hrun & _). exact Hrun.
  - assert (Hfetch : fetchEarthquakeData decimal.ParseFloat sample_net =
                     inl sample_feed) by (vm_compute; reflexivity).
    assert (Hparse : parseMinimumMagnitude decimal.ParseFloat ["eqk"; "5"] console0 =
                     (inl five, console0)) by (vm_compute; reflexivity).
    assert (Hlen : Z.of_nat (List.length (Features sample_feed)) <= int_max)
      by (vm_compute; discriminate).
    assert (Hok : Forall has_lon_lat (filter (selected five) (Features sample_feed)))
      by (repeat constructor).
    split; [exact Hfetch|]. split; [exact Hparse|]. split; [exact Hlen|].
    split; [exact Hok|].
    destruct (C8_header_blocks_summary decimal.ParseFloat ["eqk"; "5"] sample_net
                sample_feed five console0 Hfetch Hparse)
      as (_ & H).
    destruct (H Hlen Hok) as (Hrun & _). exact Hrun.
Defined.

(** The text of that second run: the record of magnitude 5.5 between the
    header and the summary, the records of magnitude 5.0 and 2.1 left out. *)
Example sample_run_text :
  run decimal.ParseFloat ["eqk"; "5"] sample_net =
    (inl tt,
     mkConsole
       (separator ++ LF ++
        "Earthquake(s) with magnitude 5.0 or higher in the last 30 days:" ++ LF ++
        separator ++ LF ++
        "Epicenter: San Francisco, CA" ++ LF ++
        "Magnitude: 5.5" ++ LF ++
        "Time: 2023-11-14 22:13:20 UTC" ++ LF ++
        "Longitude: -122.4194" ++ LF ++
        "Latitude: 37.7749" ++ LF ++
        separator ++ LF ++
        "Total number of Earthquakes: 1" ++ LF)
       []).
Proof. vm_compute. reflexivity. Qed.

(** C9.  Arguments after the first change nothing: the threshold, the log
    and the whole run, standard output and exit status included, are those
    of the command line cut after its first argument. *)
Theorem C9_only_first_argument_counts (ParseFloat : string -> option float64)
  (prog arg1 : string) (rest : list string) :
  (forall c,
     parseMinimumMagnitude ParseFloat (prog :: arg1 :: rest) c =
     parseMinimumMagnitude ParseFloat [prog; arg1] c) /\
  (forall net,
     run ParseFloat (prog :: arg1 :: rest) net = run ParseFloat [prog; arg1] net).
Proof.
  split; reflexivity.
Qed.

(** C10.  For a fixed decoded feed the count is antitone in the threshold:
    with [m1 <= m2], a count returned at [m2] is at most a count returned at
    [m1]; every count returned lies between 0 and the number of records; and
    on a feed whose records all have their two coordinates both counts are
    returned. *)
Theorem C10_count_antitone_and_bounded (ParseFloat : string -> option float64)
  (net : network) (q : Earthquake) (m1 m2 : float64) (c1 c2 : console) :
  fetchEarthquakeData ParseFloat net = inl q ->
  Z.of_nat (List.length (Features q)) <= int_max ->
  float64_le m1 m2 = true ->
  (forall n1 n2 c1' c2',
     listQuakes ParseFloat net m1 c1 = (inl n1, c1') ->
     listQuakes ParseFloat net m2 c2 = (inl n2, c2') ->
     n2 <= n1) /\
  (forall m c n c',
     listQuakes ParseFloat net m c = (inl n, c') ->
     0 <= n <= Z.of_nat (List.length (Features q))) /\
  (Forall has_lon_lat (Features q) ->
   exists n1 n2 c1' c2',
     listQuakes ParseFloat net m1 c1 = (inl n1, c1') /\
     listQuakes ParseFloat net m2 c2 = (inl n2, c2') /\
     n2 <= n1 /\ 0 <= n2 /\ n1 <= Z.of_nat (List.length (Features q))).
Proof.
  intros Hfetch Hlen Hle. split; [|split].
  - intros n1 n2 c1' c2' H1 H2.
    destruct (listQuakes_returned ParseFloat net q m1 c1 c1' n1 Hfetch Hlen H1)
      as [_ ->].
    destruct (listQuakes_returned ParseFloat net q m2 c2 c2' n2 Hfetch Hlen H2)
      as [_ ->].
    now apply count_above_antitone.
  - intros m c n c' H.
    destruct (listQuakes_returned ParseFloat net q m c c' n Hfetch Hlen H)
      as [_ ->].
    apply count_above_bounds.
  - intros Hall.
    assert (Hsel : forall m, Forall has_lon_lat (filter (selected m) (Features q))).
    { intros m. apply Forall_forall. intros f Hin.
      apply filter_In in Hin. destruct Hin as [Hin _].
      revert f Hin. now apply Forall_forall. }
    eexists _, _, _, _.
    split; [apply (listQuakes_returns ParseFloat net q m1 c1 Hfetch Hlen (Hsel m1))|].
    split; [apply (listQuakes_returns ParseFloat net q m2 c2 Hfetch Hlen (Hsel m2))|].
    split; [now apply count_above_antitone|].
    split; apply count_above_bounds.
Qed.

(** On the sample feed: one record above 5.0, none above 6.0. *)
Lemma C10_witness :
  fetchEarthquakeData decimal.ParseFloat sample_net = inl sample_feed /\
  Z.of_nat (List.length (Features sample_feed)) <= int_max /\
  float64_le five six = true /\
  Forall has_lon_lat (Features sample_feed) /\
  exists n1 n2 c1' c2',
    listQuakes decimal.ParseFloat sample_net five console0 = (inl n1, c1') /\
    listQuakes decimal.ParseFloat sample_net six console0 = (inl n2, c2') /\
    n2 <= n1 /\ 0 <= n2 /\ n1 <= Z.of_nat (List.length (Features sample_feed)).
Proof.
  assert (Hfetch : fetchEarthquakeData decimal.ParseFloat sample_net = inl sample_feed)
    by (vm_compute; reflexivity).
  assert (Hlen : Z.of_nat (List.length (Features sample_feed)) <= int_max)
    by (vm_compute; discriminate).
  assert (Hle : float64_le five six = true) by reflexivity.
  assert (Hall : Forall has_lon_lat (Features sample_feed)) by (repeat constructor).
  split; [exact Hfetch|]. split; [exact Hlen|]. split; [exact Hle|].
  split; [exact Hall|].
  destruct (C10_count_antitone_and_bounded decimal.ParseFloat sample_net sample_feed
              five six console0 console0 Hfetch Hlen Hle) as (_ & _ & H).
  exact (H Hall).
Defined.

(** The two counts of that feed. *)
Example sample_counts :
  fst (listQuakes decimal.ParseFloat sample_net five console0) = inl 1 /\
  fst (listQuakes decimal.ParseFloat sample_net six console0) = inl 0 /\
  fst (listQuakes decimal.ParseFloat sample_net float64_zero console0) = inl 3.
Proof. repeat split; vm_compute; reflexivity. Qed.

(* ================================================================== *)
(** * Further properties of the program *)

(** ** The loop, piece by piece *)

Lemma count_above_app (m : float64) (a b : list Feature) :
  count_above m (a ++ b) = count_above m a + count_above m b.
Proof.
  unfold count_above. rewrite filter_app, length_app. lia.
Qed.

Lemma concat_app (xs ys : list string) :
  String.concat "" (xs ++ ys) = String.concat "" xs ++ String.concat "" ys.
Proof.
  induction xs as [|x xs IH]; [reflexivity|].
  change ((x :: xs) ++ ys)%list with (x :: (xs ++ ys))%list.
  destruct xs as [|x' xs].
  - cbn [app String.concat]. destruct ys as [|y ys]; cbn [String.concat].
    + now rewrite append_nil_r.
    + reflexivity.
  - change ((x' :: xs) ++ ys)%list with (x' :: (xs ++ ys))%list in *.
    cbn [String.concat] in *. rewrite IH. cbn [append].
    now rewrite append_assoc.
Qed.

Lemma blocks_app (m : float64) (a b : list Feature) :
  blocks m (a ++ b) = blocks m a ++ blocks m b.
Proof.
  unfold blocks. now rewrite filter_app, map_app, concat_app.
Qed.

Lemma rangeFeatures_split (m : float64) (a b : list Feature) :
  forall (t : Z) (c : console),
    rangeFeatures m (a ++ b) t c =
      bind (rangeFeatures m a t) (fun t' => rangeFeatures m b t') c.
Proof.
  induction a as [|f a IH]; intros t c.
  - reflexivity.
  - cbn [app rangeFeatures].
    destruct (float64_gt (Mag (Properties f)) m).
    + unfold bind.
      destruct (printEarthquakeInfo f c) as [[[]|h] c1];
        [rewrite IH; reflexivity | reflexivity].
    + apply IH.
Qed.

(** X3.  The loop over a feed in two parts is the loop over the first part
    followed by the loop over the second, which counts on from where the
    first stopped and does not run at all when the first panics.  With it the
    number of selected records and their blocks are those of the parts, one
    after the other. *)
Theorem rangeFeatures_app (m : float64) (a b : list Feature) (t : Z) (c : console) :
  rangeFeatures m (a ++ b) t c =
    bind (rangeFeatures m a t) (fun t' => rangeFeatures m b t') c /\
  count_above m (a ++ b) = count_above m a + count_above m b /\
  blocks m (a ++ b) = blocks m a ++ blocks m b.
Proof.
  split; [apply rangeFeatures_split|].
  split; [apply count_above_app | apply blocks_app].
Qed.

(** What the loop prints when nothing stops it, whatever the count does. *)
Lemma rangeFeatures_output (m : float64) (fs : list Feature) :
  forall (t : Z) (c : console),
    Forall has_lon_lat (filter (selected m) fs) ->
    exists n,
      rangeFeatures m fs t c =
        (inl n, mkConsole (stdout c ++ blocks m fs) (logged c)).
Proof.
  unfold blocks.
  induction fs as [|f fs IH]; intros t c Hok.
  - exists t. simpl. rewrite append_nil_r. destruct c; reflexivity.
  - cbn [rangeFeatures filter] in *. fold (selected m f) in *.
    destruct (selected m f) eqn:Hsel.
    + inversion Hok as [|? ? Hf Hrest]; subst.
      unfold bind. rewrite (printEarthquakeInfo_block f c Hf).
      destruct (IH (int_wrap (t + 1)) (mkConsole (stdout c ++ block f) (logged c)) Hrest)
        as [n Hn].
      exists n. rewrite Hn. cbn [stdout logged].
      now rewrite concat_blocks_cons, append_assoc.
    + now apply IH.
Qed.

Lemma printEarthquakeInfo_cut (f : Feature) (c : console) :
  ~ has_lon_lat f ->
  printEarthquakeInfo f c =
    (inr (Panic (IndexOutOfRange
                   (Z.of_nat (List.length (Coordinates (Geometry f))))
                   (Z.of_nat (List.length (Coordinates (Geometry f)))))),
     mkConsole (stdout c ++ cut_block f) (logged c)).
Proof.
  intros H. rewrite (printEarthquakeInfo_short f c H). reflexivity.
Qed.

Lemma rangeFeatures_cut (m : float64) (pre post : list Feature) (f : Feature)
  (t : Z) (c : console) :
  Forall has_lon_lat (filter (selected m) pre) ->
  selected m f = true ->
  ~ has_lon_lat f ->
  rangeFeatures m (pre ++ f :: post) t c =
    (inr (Panic (IndexOutOfRange
                   (Z.of_nat (List.length (Coordinates (Geometry f))))
                   (Z.of_nat (List.length (Coordinates (Geometry f)))))),
     mkConsole (stdout c ++ blocks m pre ++ cut_block f) (logged c)).
Proof.
  intros Hpre Hsel Hshort.
  rewrite (rangeFeatures_split m pre (f :: post) t c).
  unfold bind at 1.
  destruct (rangeFeatures_output m pre t c Hpre) as [n ->].
  cbn [rangeFeatures]. unfold selected in Hsel. rewrite Hsel.
  unfold bind. rewrite (printEarthquakeInfo_cut f _ Hshort).
  cbn [stdout logged]. now rewrite append_assoc.
Qed.


(** The loop never writes to the log, and what it returns and prints does
    not depend on what the log holds. *)
Lemma rangeFeatures_frame (m : float64) (fs : list Feature) :
  forall (t : Z) (c : console),
    rangeFeatures m fs t c =
      (fst (rangeFeatures m fs t (mkConsole (stdout c) [])),
       mkConsole (stdout (snd (rangeFeatures m fs t (mkConsole (stdout c) []))))
                 (logged c)).
Proof.
  induction fs as [|f fs IH]; intros t c.
  - destruct c; reflexivity.
  - cbn [rangeFeatures].
    destruct (float64_gt (Mag (Properties f)) m); [|apply IH].
    unfold bind.
    destruct (Nat.le_gt_cases 2 (List.length (Coordinates (Geometry f)))) as [Hl|Hl].
    + rewrite !(printEarthquakeInfo_block f _ Hl). cbn [stdout logged].
      rewrite IH. reflexivity.
    + rewrite !printEarthquakeInfo_cut by (unfold has_lon_lat; lia).
      reflexivity.
Qed.

Section Runs.

Variable ParseFloat : string -> option float64.

Lemma listQuakes_frame (net : network) (m : float64) (c : console) :
  listQuakes ParseFloat net m c =
    (fst (listQuakes ParseFloat net m (mkConsole (stdout c) [])),
     mkConsole
       (stdout (snd (listQuakes ParseFloat net m (mkConsole (stdout c) []))))
       (logged c ++ logged (snd (listQuakes ParseFloat net m (mkConsole (stdout c) []))))).
Proof.
  destruct (fetchEarthquakeData ParseFloat net) as [q|err] eqn:Hfetch.
  - rewrite !(listQuakes_fetched ParseFloat net q m _ Hfetch).
    cbn [stdout logged].
    rewrite (rangeFeatures_frame m (Features q) 0
               (mkConsole (stdout c ++ header m) (logged c))).
    rewrite (rangeFeatures_frame m (Features q) 0
               (mkConsole (stdout c ++ header m) [])).
    cbn [stdout logged fst snd]. now rewrite app_nil_r.
  - unfold listQuakes. rewrite Hfetch. reflexivity.
Qed.

(** The run, given what the argument parser returned. *)
Lemma run_after_parse (args : list string) (net : network) (m : float64)
  (w : list log_record) :
  parseMinimumMagnitude ParseFloat args console0 = (inl m, mkConsole "" w) ->
  run ParseFloat args net =
    match listQuakes ParseFloat net m console0 with
    | (inl total, c) =>
        (inl tt, mkConsole (stdout c ++ summary total) (w ++ logged c))
    | (inr h, c) => (inr h, mkConsole (stdout c) (w ++ logged c))
    end.
Proof.
  intros Hp. unfold run, main, bind. rewrite Hp.
  rewrite (listQuakes_frame net m (mkConsole "" w)). cbn [stdout logged].
  change (mkConsole "" []) with console0.
  destruct (listQuakes ParseFloat net m console0) as [[total|h] c]; reflexivity.
Qed.

Lemma parse_console0 (args : list string) :
  exists m w,
    parseMinimumMagnitude ParseFloat args console0 = (inl m, mkConsole "" w) /\
    (w = [] \/ w = [warning]).
Proof.
  destruct (parseMinimumMagnitude_returns ParseFloat args console0)
    as (m & w & H & Hw).
  exists m, w. split; [exact H | exact Hw].
Qed.

End Runs.

(** ** How a run ends *)


(** X2.  When a record above the threshold has fewer than two coordinates, the run
    stops at the first such record with an index out of range (exit status
    2): standard output holds the header, the blocks of the selected records
    before it and the lines of its own block up to the missing coordinate;
    the records after it and the summary line are not printed, and the log is
    as the argument parser left it. *)
Theorem run_stops_at_first_short_record (ParseFloat : string -> option float64)
  (args : list string) (net : network) (q : Earthquake) (m : float64) (c0 : console)
  (pre post : list Feature) (f : Feature) :
  parseMinimumMagnitude ParseFloat args console0 = (inl m, c0) ->
  fetchEarthquakeData ParseFloat net = inl q ->
  Features q = (pre ++ f :: post)%list ->
  Forall has_lon_lat (filter (selected m) pre) ->
  float64_gt (Mag (Properties f)) m = true ->
  (List.length (Coordinates (Geometry f)) < 2)%nat ->
  run ParseFloat args net =
    (inr (Panic (IndexOutOfRange
                   (Z.of_nat (List.length (Coordinates (Geometry f))))
                   (Z.of_nat (List.length (Coordinates (Geometry f)))))),
     mkConsole (header m ++ blocks m pre ++ cut_block f) (logged c0)).
Proof.
  intros Hp Hfetch Hsplit Hpre Hsel Hshort.
  destruct (parse_console0 ParseFloat args) as (m' & w & Hp' & _).
  rewrite Hp in Hp'. injection Hp' as <- ->.
  rewrite (run_after_parse ParseFloat args net m w Hp).
  rewrite (listQuakes_fetched ParseFloat net q m console0 Hfetch), Hsplit.
  rewrite (rangeFeatures_cut m pre post f 0 _ Hpre Hsel)
    by (unfold has_lon_lat; lia).
  cbn [stdout logged console0]. now rewrite app_nil_r.
Qed.

(** The feed whose second record has one coordinate, at threshold 0: the
    first block, the cut block with its longitude line, and nothing of the
    third record. *)
Lemma run_stops_at_first_short_record_witness :
  parseMinimumMagnitude decimal.ParseFloat ["eqk"] console0 =
    (inl float64_zero, console0) /\
  fetchEarthquakeData decimal.ParseFloat cut_net = inl cut_feed /\
  Features cut_feed =
    ([nth 0 (Features cut_feed) Feature0] ++
     nth 1 (Features cut_feed) Feature0 :: [nth 2 (Features cut_feed) Feature0])%list /\
  run decimal.ParseFloat ["eqk"] cut_net =
    (inr (Panic (IndexOutOfRange 1 1)),
     mkConsole
       (header float64_zero ++
        blocks float64_zero [nth 0 (Features cut_feed) Feature0] ++
        cut_block (nth 1 (Features cut_feed) Feature0))
       []).
Proof.
  assert (Hp : parseMinimumMagnitude decimal.ParseFloat ["eqk"] console0 =
               (inl float64_zero, console0)) by reflexivity.
  assert (Hfetch : fetchEarthquakeData decimal.ParseFloat cut_net = inl cut_feed)
    by (vm_compute; reflexivity).
  assert (Hsplit : Features cut_feed =
            ([nth 0 (Features cut_feed) Feature0] ++
             nth 1 (Features cut_feed) Feature0 ::
             [nth 2 (Features cut_feed) Feature0])%list)
    by reflexivity.
  split; [exact Hp|]. split; [exact Hfetch|]. split; [exact Hsplit|].
  apply (run_stops_at_first_short_record decimal.ParseFloat ["eqk"] cut_net cut_feed
           float64_zero console0 _ _ _ Hp Hfetch Hsplit).
  - repeat constructor.
  - reflexivity.
  - simpl. lia.
Defined.

(** That run, as text. *)
Example cut_run_text :
  stdout (snd (run decimal.ParseFloat ["eqk"] cut_net)) =
    separator ++ LF ++
    "Earthquake(s) with magnitude 0.0 or higher in the last 30 days:" ++ LF ++
    separator ++ LF ++
    "Epicenter: San Francisco, CA" ++ LF ++
    "Magnitude: 5.5" ++ LF ++
    "Time: 2023-11-14 22:13:20 UTC" ++ LF ++
    "Longitude: -122.4194" ++ LF ++
    "Latitude: 37.7749" ++ LF ++
    separator ++ LF ++
    "Epicenter: One coordinate" ++ LF ++
    "Magnitude: 6.1" ++ LF ++
    "Time: 2023-11-14 22:13:23 UTC" ++ LF ++
    "Longitude: 12.5000" ++ LF.
Proof. vm_compute. reflexivity. Qed.

(** ** What a run depends on *)

Lemma printEarthquakeInfo_same (f1 f2 : Feature) (c : console) :
  same_printed f1 f2 -> printEarthquakeInfo f1 c = printEarthquakeInfo f2 c.
Proof.
  destruct f1 as [ty1 [mag1 place1 time1 upd1 tz1 lon1 lat1] [gty1 cs1]].
  destruct f2 as [ty2 [mag2 place2 time2 upd2 tz2 lon2 lat2] [gty2 cs2]].
  unfold same_printed. cbn [Properties Geometry Place Mag Time Coordinates].
  intros (-> & -> & -> & Hc).
  unfold printEarthquakeInfo.
  cbn [Properties Geometry Place Mag Time Coordinates].
  destruct cs1 as [|x1 [|y1 r1]], cs2 as [|x2 [|y2 r2]];
    cbn [firstn] in Hc; try discriminate; try reflexivity;
    injection Hc as -> ; subst; reflexivity.
Qed.

Lemma rangeFeatures_same (m : float64) (fs1 fs2 : list Feature) :
  Forall2 same_printed fs1 fs2 ->
  forall t c, rangeFeatures m fs1 t c = rangeFeatures m fs2 t c.
Proof.
  induction 1 as [|f1 f2 fs1 fs2 Hf Hrest IH]; intros t c; [reflexivity|].
  cbn [rangeFeatures].
  assert (Hmag : Mag (Properties f1) = Mag (Properties f2)) by apply Hf.
  rewrite Hmag.
  destruct (float64_gt (Mag (Properties f2)) m); [|apply IH].
  unfold bind. rewrite (printEarthquakeInfo_same f1 f2 c Hf).
  destruct (printEarthquakeInfo f2 c) as [[[]|h] c1]; [apply IH | reflexivity].
Qed.

(** X4.  A run is determined by the arguments and, record by record, by the
    place, the magnitude, the event time and the first two coordinates: two
    feeds whose records agree on these give the same standard output, log and
    end of the run.  The feed's type and metadata, a record's type tags,
    update time, time zone, [longitude] and [latitude] properties and the
    coordinates after the second never show. *)
Theorem run_depends_on_printed_fields (ParseFloat : string -> option float64)
  (args : list string) (net1 net2 : network) (q1 q2 : Earthquake) :
  fetchEarthquakeData ParseFloat net1 = inl q1 ->
  fetchEarthquakeData ParseFloat net2 = inl q2 ->
  Forall2 same_printed (Features q1) (Features q2) ->
  run ParseFloat args net1 = run ParseFloat args net2.
Proof.
  intros H1 H2 Hsame.
  destruct (parse_console0 ParseFloat args) as (m & w & Hp & _).
  rewrite !(run_after_parse ParseFloat args _ m w Hp).
  rewrite (listQuakes_fetched ParseFloat net1 q1 m console0 H1).
  rewrite (listQuakes_fetched ParseFloat net2 q2 m console0 H2).
  now rewrite (rangeFeatures_same m _ _ Hsame).
Qed.

(** The sample feed and its variant print the same. *)
Lemma run_depends_on_printed_fields_witness :
  fetchEarthquakeData decimal.ParseFloat sample_net = inl sample_feed /\
  fetchEarthquakeData decimal.ParseFloat sample_net_variant = inl sample_feed_variant /\
  Forall2 same_printed (Features sample_feed) (Features sample_feed_variant) /\
  sample_feed <> sample_feed_variant /\
  run decimal.ParseFloat ["eqk"; "1"] sample_net =
  run decimal.ParseFloat ["eqk"; "1"] sample_net_variant.
Proof.
  assert (H1 : fetchEarthquakeData decimal.ParseFloat sample_net = inl sample_feed)
    by (vm_compute; reflexivity).
  assert (H2 : fetchEarthquakeData decimal.ParseFloat sample_net_variant =
               inl sample_feed_variant) by (vm_compute; reflexivity).
  assert (Hsame : Forall2 same_printed (Features sample_feed)
                    (Features sample_feed_variant))
    by (repeat constructor).
  split; [exact H1|]. split; [exact H2|]. split; [exact Hsame|].
  split; [discriminate|].
  exact (run_depends_on_printed_fields decimal.ParseFloat ["eqk"; "1"]
           sample_net sample_net_variant _ _ H1 H2 Hsame).
Defined.

(** X5.  A first argument that does not parse changes the log and nothing else:
    the end of the run and standard output are those of the run without
    arguments, and the log is that run's log after the warning. *)
Theorem invalid_argument_only_adds_warning (ParseFloat : string -> option float64)
  (prog arg1 : string) (rest : list string) (net : network) :
  ParseFloat arg1 = None ->
  fst (run ParseFloat (prog :: arg1 :: rest) net) = fst (run ParseFloat [prog] net) /\
  stdout (snd (run ParseFloat (prog :: arg1 :: rest) net)) =
    stdout (snd (run ParseFloat [prog] net)) /\
  logged (snd (run ParseFloat (prog :: arg1 :: rest) net)) =
    warning :: logged (snd (run ParseFloat [prog] net)).
Proof.
  intros Hnone.
  assert (Hp1 : parseMinimumMagnitude ParseFloat (prog :: arg1 :: rest) console0 =
                (inl float64_zero, mkConsole "" [warning]))
    by (simpl; now rewrite Hnone).
  assert (Hp0 : parseMinimumMagnitude ParseFloat [prog] console0 =
                (inl float64_zero, mkConsole "" [])) by reflexivity.
  rewrite (run_after_parse ParseFloat _ net _ _ Hp1).
  rewrite (run_after_parse ParseFloat _ net _ _ Hp0).
  destruct (listQuakes ParseFloat net float64_zero console0) as [[total|h] c];
    repeat split; reflexivity.
Qed.

(** [abc] on the sample feed and on a truncated body. *)
Lemma invalid_argument_only_adds_warning_witness :
  decimal.ParseFloat "abc" = None /\
  logged (snd (run decimal.ParseFloat ["eqk"; "abc"; "7"] sample_net)) =
    warning :: logged (snd (run decimal.ParseFloat ["eqk"] sample_net)) /\
  stdout (snd (run decimal.ParseFloat ["eqk"; "abc"; "7"] sample_net)) =
    stdout (snd (run decimal.ParseFloat ["eqk"] sample_net)) /\
  fst (run decimal.ParseFloat ["eqk"; "abc"] truncated_net) =
    fst (run decimal.ParseFloat ["eqk"] truncated_net).
Proof.
  assert (H : decimal.ParseFloat "abc" = None) by reflexivity.
  split; [exact H|].
  destruct (invalid_argument_only_adds_warning decimal.ParseFloat "eqk" "abc" ["7"]
              sample_net H) as (_ & Hout & Hlog).
  destruct (invalid_argument_only_adds_warning decimal.ParseFloat "eqk" "abc" []
              truncated_net H) as (Hend & _ & _).
  split; [exact Hlog|]. split; [exact Hout | exact Hend].
Defined.

(** ** Thresholds *)

Lemma rangeFeatures_none (m : float64) (fs : list Feature) :
  (forall x, float64_gt x m = false) ->
  forall t c, rangeFeatures m fs t c = (inl t, c).
Proof.
  intros Hnone. induction fs as [|f fs IH]; intros t c; [reflexivity|].
  cbn [rangeFeatures]. rewrite Hnone. apply IH.
Qed.

(** X6.  With a threshold that is NaN or plus infinity no record is selected,
    whatever the feed holds: [listQuakes] prints the header, returns 0 and
    cannot panic, also on records without coordinates.  A record whose
    magnitude is NaN is selected at no threshold. *)
Theorem nothing_above_nan_or_infinity (ParseFloat : string -> option float64)
  (net : network) (q : Earthquake) (m : float64) (c : console) :
  fetchEarthquakeData ParseFloat net = inl q ->
  m = S754_nan \/ m = S754_infinity false ->
  listQuakes ParseFloat net m c =
    (inl 0, mkConsole (stdout c ++ header m) (logged c)) /\
  (forall f m', Mag (Properties f) = S754_nan -> selected m' f = false).
Proof.
  intros Hfetch Hm. split.
  - rewrite (listQuakes_fetched ParseFloat net q m c Hfetch).
    apply rangeFeatures_none.
    intros x. unfold float64_gt, SFltb.
    destruct Hm as [-> | ->]; destruct x as [s|[|]| |s p e]; reflexivity.
  - intros f m' Hnan. unfold selected, float64_gt, SFltb. rewrite Hnan.
    destruct m' as [s|s| |s p e]; reflexivity.
Qed.

(** The feed with a record without coordinates, at a NaN threshold. *)
Lemma nothing_above_nan_or_infinity_witness :
  fetchEarthquakeData decimal.ParseFloat short_net = inl short_feed /\
  (S754_nan = S754_nan \/ S754_nan = S754_infinity false) /\
  listQuakes decimal.ParseFloat short_net S754_nan console0 =
    (inl 0, mkConsole (stdout console0 ++ header S754_nan) (logged console0)).
Proof.
  assert (H : fetchEarthquakeData decimal.ParseFloat short_net = inl short_feed)
    by (vm_compute; reflexivity).
  split; [exact H|]. split; [left; reflexivity|].
  exact (proj1 (nothing_above_nan_or_infinity decimal.ParseFloat short_net short_feed
                  S754_nan console0 H (or_introl eq_refl))).
Defined.

Lemma selected_antitone (m1 m2 : float64) (f : Feature) :
  float64_le m1 m2 = true -> selected m2 f = true -> selected m1 f = true.
Proof.
  unfold selected. intros Hle H2. exact (float64_le_gt_trans m1 m2 _ Hle H2).
Qed.

Lemma filter_selected_antitone (m1 m2 : float64) (fs : list Feature) :
  float64_le m1 m2 = true ->
  filter (selected m2) fs = filter (selected m2) (filter (selected m1) fs).
Proof.
  intros Hle. induction fs as [|f fs IH]; [reflexivity|].
  cbn [filter]. destruct (selected m2 f) eqn:E2.
  - rewrite (selected_antitone m1 m2 f Hle E2). cbn [filter].
    rewrite E2. now rewrite <- IH.
  - destruct (selected m1 f); [cbn [filter]; rewrite E2|]; exact IH.
Qed.

(** X7.  Raising the threshold only removes records: with [m1 <= m2] the records
    selected at [m2] are those selected at [m1] that are also above [m2], in
    the same order; so when [listQuakes] returns at [m1] it returns at [m2]
    too, a higher threshold never bringing a panic that the lower one did not
    have. *)
Theorem higher_threshold_selects_less (ParseFloat : string -> option float64)
  (net : network) (q : Earthquake) (m1 m2 : float64) (c1 c2 : console) :
  fetchEarthquakeData ParseFloat net = inl q ->
  float64_le m1 m2 = true ->
  filter (selected m2) (Features q) =
    filter (selected m2) (filter (selected m1) (Features q)) /\
  ((exists n c', listQuakes ParseFloat net m1 c1 = (inl n, c')) ->
   exists n c', listQuakes ParseFloat net m2 c2 = (inl n, c')).
Proof.
  intros Hfetch Hle. split; [now apply filter_selected_antitone|].
  intros (n & c' & H).
  rewrite (listQuakes_fetched ParseFloat net q m1 c1 Hfetch) in H.
  rewrite (listQuakes_fetched ParseFloat net q m2 c2 Hfetch).
  apply rangeFeatures_total.
  rewrite (filter_selected_antitone m1 m2 _ Hle).
  apply Forall_forall. intros f Hin. apply filter_In in Hin.
  destruct Hin as [Hin _].
  pose proof (rangeFeatures_returns m1 _ _ _ _ _ H) as Hok.
  revert f Hin. now apply Forall_forall.
Qed.

(** The feed with a record of magnitude 6.1 and no coordinates: no panic at
    7, hence none at plus infinity. *)
Lemma higher_threshold_selects_less_witness :
  fetchEarthquakeData decimal.ParseFloat short_net = inl short_feed /\
  float64_le (float64_of_Z 7 0) (S754_infinity false) = true /\
  (exists n c',
     listQuakes decimal.ParseFloat short_net (float64_of_Z 7 0) console0 = (inl n, c')) /\
  exists n c',
    listQuakes decimal.ParseFloat short_net (S754_infinity false) console0 = (inl n, c').
Proof.
  assert (H : fetchEarthquakeData decimal.ParseFloat short_net = inl short_feed)
    by (vm_compute; reflexivity).
  assert (Hle : float64_le (float64_of_Z 7 0) (S754_infinity false) = true)
    by reflexivity.
  assert (H7 : exists n c',
             listQuakes decimal.ParseFloat short_net (float64_of_Z 7 0) console0 =
               (inl n, c'))
    by (eexists _, _; vm_compute; reflexivity).
  split; [exact H|]. split; [exact Hle|]. split; [exact H7|].
  exact (proj2 (higher_threshold_selects_less decimal.ParseFloat short_net short_feed
                  _ _ console0 console0 H Hle) H7).
Defined.

Lemma float64_eq_same_gt (m1 m2 x : float64) :
  float64_eq m1 m2 = true -> float64_gt x m1 = float64_gt x m2.
Proof.
  unfold float64_eq, float64_gt, SFeqb, SFltb.
  destruct m1 as [s1|s1| |s1 p1 e1], m2 as [s2|s2| |s2 p2 e2],
           x as [s3|s3| |s3 p3 e3]; simpl;
    try destruct s1; try destruct s2; try destruct s3; simpl;
    try congruence; try reflexivity;
    intros H12; compare_cases; simpl in *; subst;
    try congruence; try reflexivity; try lia.
Qed.

(** X8.  Thresholds that compare equal select the same records: the loop does the
    same at both, and so at 0 and at minus zero, which differ only in the
    header ([0.0] and [-0.0]). *)
Theorem equal_thresholds_select_the_same (m1 m2 : float64) :
  float64_eq m1 m2 = true ->
  (forall fs t c, rangeFeatures m1 fs t c = rangeFeatures m2 fs t c) /\
  (forall fs, filter (selected m1) fs = filter (selected m2) fs).
Proof.
  intros Heq.
  assert (Hsel : forall f, float64_gt (Mag (Properties f)) m1 =
                           float64_gt (Mag (Properties f)) m2)
    by (intros f; now apply float64_eq_same_gt).
  split.
  - intros fs. induction fs as [|f fs IH]; intros t c; [reflexivity|].
    cbn [rangeFeatures]. rewrite Hsel.
    destruct (float64_gt (Mag (Properties f)) m2); [|apply IH].
    unfold bind. destruct (printEarthquakeInfo f c) as [[[]|h] c1];
      [apply IH | reflexivity].
  - intros fs. apply filter_ext. intros f. unfold selected. apply Hsel.
Qed.

(** Zero and minus zero on the sample feed. *)
Lemma equal_thresholds_select_the_same_witness :
  float64_eq minus_zero float64_zero = true /\
  rangeFeatures minus_zero (Features sample_feed) 0 console0 =
  rangeFeatures float64_zero (Features sample_feed) 0 console0 /\
  header minus_zero <> header float64_zero.
Proof.
  assert (H : float64_eq minus_zero float64_zero = true) by reflexivity.
  split; [exact H|]. split.
  - exact (proj1 (equal_thresholds_select_the_same minus_zero float64_zero H)
             (Features sample_feed) 0 console0).
  - vm_compute. discriminate.
Defined.

(** ** The event time *)

Lemma UnixMilli_floor (msec : Z) :
  time.unixSec (time.UnixMilli msec) = msec / 1000.
Proof.
  pose proof (UnixMilli_sec msec) as H.
  apply (Z.div_unique msec 1000 _ (msec - 1000 * time.unixSec (time.UnixMilli msec)));
    lia.
Qed.

(** X9.  The milliseconds of an event time are not printed: two event times in
    the same second, before or after the epoch, give the same text. *)
Theorem timestamp_drops_milliseconds (msec1 msec2 : Z) :
  msec1 / 1000 = msec2 / 1000 -> timestamp msec1 = timestamp msec2.
Proof.
  intros H. unfold timestamp. rewrite !FormatUTC_dateFormat.
  unfold time.Year, time.Month, time.Day, time.Hour, time.Minute, time.Second.
  now rewrite !UnixMilli_floor, H.
Qed.

Lemma timestamp_drops_milliseconds_witness :
  (-1) / 1000 = (-1000) / 1000 /\ timestamp (-1) = timestamp (-1000).
Proof.
  assert (H : (-1) / 1000 = (-1000) / 1000) by reflexivity.
  split; [exact H | exact (timestamp_drops_milliseconds (-1) (-1000) H)].
Defined.

(** ** What the decoder keeps and what it refuses *)

Section Decoding.

Variable ParseFloat : string -> option float64.

















End Decoding.







Example time_out_of_range_is_refused :
  fetchEarthquakeData decimal.ParseFloat
    (Responds (Document (sample_document
       [sample_record "5.5" "x" "9223372036854775808" ["1"; "2"]]))) =
    inr (UnmarshalTypeError "number 9223372036854775808" TInt64) /\
  fetchEarthquakeData decimal.ParseFloat
    (Responds (Document (sample_document
       [sample_record "5.5" "x" "1.7e12" ["1"; "2"]]))) =
    inr (UnmarshalTypeError "number 1.7e12" TInt64).
Proof. split; vm_compute; reflexivity. Qed.

Lemma store_members_app {S : Type} (field : string -> json -> S -> result S)
  (a b : list (string * json)) :
  forall s,
    json_decode.store_members field (a ++ b) s =
      match json_decode.store_members field a s with
      | inl s' => json_decode.store_members field b s'
      | inr e => inr e
      end.
Proof.
  induction a as [|[k v] a IH]; intros s; [reflexivity|].
  cbn [app json_decode.store_members].
  destruct (field k v s) as [s'|e]; [apply IH | reflexivity].
Qed.

(** X13.  A member of the feed document whose key names none of the three fields
    [type], [Meta] and [features] is skipped, whatever its value and
    wherever it stands: the document decodes as it does without it. *)
Theorem unknown_members_are_skipped (ParseFloat : string -> option float64)
  (a b : list (string * json)) (key : string) (v : json) :
  json_decode.selects key "type" = false ->
  json_decode.selects key "Meta" = false ->
  json_decode.selects key "features" = false ->
  fetchEarthquakeData ParseFloat (Responds (Document (JObject (a ++ (key, v) :: b)))) =
  fetchEarthquakeData ParseFloat (Responds (Document (JObject (a ++ b)))).
Proof.
  intros Ht Hm Hf.
  unfold fetchEarthquakeData, json_decode.Decode, json_decode.store_struct.
  rewrite !store_members_app.
  destruct (json_decode.store_members _ a Earthquake0) as [q|e]; [|reflexivity].
  cbn [json_decode.store_members].
  unfold json_decode.field_Earthquake at 1. now rewrite Ht, Hm, Hf.
Qed.

(** The sample feed decodes as it does without its [metadata] member, and
    with a [bbox] member added. *)
Lemma unknown_members_are_skipped_witness :
  json_decode.selects "metadata" "type" = false /\
  json_decode.selects "metadata" "Meta" = false /\
  json_decode.selects "metadata" "features" = false /\
  fetchEarthquakeData decimal.ParseFloat
    (Responds (Document (JObject
       ([("type", JString "FeatureCollection")] ++
        ("metadata", sample_metadata) :: [("features", JArray [record_small])])))) =
  fetchEarthquakeData decimal.ParseFloat
    (Responds (Document (JObject
       ([("type", JString "FeatureCollection")] ++
        [("features", JArray [record_small])])))).
Proof.
  split; [reflexivity|]. split; [reflexivity|]. split; [reflexivity|].
  apply unknown_members_are_skipped; reflexivity.
Defined.

